(** * Deposit coverage validation for item fulfilments

    A shallow embedding of the two SuiteScript user-event scripts of the
    repository (the OTP-9678 script and its OTP-9419 sibling) and the
    properties of their [beforeSubmit] entry point.

    - JavaScript numbers are IEEE-754 binary64 values, modelled with the
      executable specification [SpecFloat] of the standard library.
    - The NetSuite modules (N/log, N/record, N/runtime, N/search) and the
      ECMAScript built-ins [parseFloat] and [ToString] are not code of the
      repository: they are the fields of a [Host] record.
    - A script is a function from the trace of host effects so far to a
      completion (normal or thrown value) and the extended trace. *)

From Stdlib Require Import ZArith Bool List String Ascii Lia QArith DecimalString.
From Stdlib Require Import Floats.SpecFloat.
Import ListNotations.

Local Open Scope string_scope.
Local Open Scope Z_scope.

(** ** JavaScript numbers *)

Module JSNumber.

Definition float : Type := spec_float.

Definition prec : Z := 53.
Definition emax : Z := 1024.

Definition NaN : float := S754_nan.
Definition zero : float := S754_zero false.

(** [x + y] *)
Definition add (x y : float) : float := SFadd prec emax x y.

(** [x / y] *)
Definition div (x y : float) : float := SFdiv prec emax x y.

(** [x < y] and [x >= y]; both are false when an operand is NaN. *)
Definition ltb (x y : float) : bool := SFltb x y.
Definition geb (x y : float) : bool := SFleb y x.
Definition eqb (x y : float) : bool := SFeqb x y.

(** The integer [z] as a number (rounded to nearest even when it does not
    fit the 53-bit significand). *)
Definition ofZ (z : Z) : float := binary_normalize prec emax z 0 false.

(** ToBoolean on numbers: NaN, +0 and -0 are falsy. *)
Definition truthy (x : float) : bool :=
  match x with
  | S754_nan | S754_zero _ => false
  | _ => true
  end.

(** [x || 0] on numbers. *)
Definition orZero (x : float) : float := if truthy x then x else zero.

(** The real number a finite value denotes, as a rational. *)
Definition exactQ (x : float) : option Q :=
  match x with
  | S754_zero _ => Some 0%Q
  | S754_finite s m e => Some (inject_Z (cond_Zopp s (Zpos m)) * Qpower 2 e)%Q
  | _ => None
  end.

End JSNumber.
Import JSNumber.

(** ** JavaScript values that cross the script's boundary *)

Inductive JSValue : Type :=
| VUndefined
| VNull
| VBool (b : bool)
| VNum (n : float)
| VStr (s : string)
| VError (name message : string).

(** ToBoolean. *)
Definition toBoolean (v : JSValue) : bool :=
  match v with
  | VUndefined | VNull => false
  | VBool b => b
  | VNum n => truthy n
  | VStr s => negb (s =? "")%string
  | VError _ _ => true
  end.

(** ** Completions, effects and the script monad *)

(** How a JavaScript call ends: normally with a value, or by throwing. *)
Inductive Completion (A : Type) : Type :=
| Normal (a : A)
| Throw (e : JSValue).
Arguments Normal {A} a.
Arguments Throw {A} e.

Inductive LogLevel : Type := Debug | Audit.

(** What the host can observe of a run: log entries of N/log and the calls
    into N/search and N/record, each with the internal id it was given. *)
Inductive Event : Type :=
| LogEntry (level : LogLevel) (title details : string)
| LookupFields (id : JSValue)
| RecordLoad (id : JSValue)
| SearchCreate (id : JSValue).

Definition Trace : Type := list Event.

Definition Script (A : Type) : Type := Trace -> Completion A * Trace.

Definition ret {A} (a : A) : Script A := fun tr => (Normal a, tr).

Definition throw {A} (e : JSValue) : Script A := fun tr => (Throw e, tr).

Definition bind {A B} (m : Script A) (k : A -> Script B) : Script B :=
  fun tr =>
    match m tr with
    | (Normal a, tr') => k a tr'
    | (Throw e, tr') => (Throw e, tr')
    end.

(** [try { body } catch (e) { handler e }] *)
Definition tryCatch {A} (body : Script A) (handler : JSValue -> Script A) : Script A :=
  fun tr =>
    match body tr with
    | (Normal a, tr') => (Normal a, tr')
    | (Throw e, tr') => handler e tr'
    end.

(** A call into the host: recorded in the trace, completing as the host says. *)
Definition hostCall {A} (ev : Event) (r : Completion A) : Script A :=
  fun tr => (r, (tr ++ [ev])%list).

Declare Scope script_scope.
Delimit Scope script_scope with script.
Notation "x <- c1 ;; c2" := (bind c1 (fun x => c2))
  (at level 61, c1 at next level, right associativity) : script_scope.
Notation "c1 ;; c2" := (bind c1 (fun _ => c2))
  (at level 61, right associativity) : script_scope.
Local Open Scope script_scope.

(** ** The host platform *)

(** A record object of N/record or a result of N/search: [getValue(fieldId)]. *)
Record NSRecord : Type := { getValue : string -> JSValue }.

(** A plain object, read by property name ([VUndefined] when absent). *)
Definition JSObject : Type := string -> JSValue.

(** What [search.create(...).run()] has to give: the results in the order
    the host produces them, ending normally or with a platform error. *)
Inductive ResultSet : Type :=
| rs_done
| rs_next (result : NSRecord) (rest : ResultSet)
| rs_fail (e : JSValue).

Record Host : Type := {
  (** ECMAScript [parseFloat] and the [ToString] of template literals *)
  parseFloat : JSValue -> float;
  ToString : JSValue -> string;
  (** [runtime.executionContext] and [runtime.ContextType.USEREVENT] *)
  executionContext : string;
  USEREVENT : string;
  (** [search.lookupFields({type: SALES_ORDER, id, columns: ['total']})] *)
  search_lookupFields : JSValue -> Completion JSObject;
  (** [record.load({type: SALES_ORDER, id, isDynamic: false})] *)
  record_load : JSValue -> Completion NSRecord;
  (** [search.create({type: 'customerdeposit', filters: [['salesorder',
      'anyof', id]], columns: ['total']}).run()]; a search that cannot be
      created or run is a result set that fails at once *)
  search_run : JSValue -> ResultSet
}.

(** [scriptContext] of a user event. *)
Record ScriptContext : Type := {
  type : string;
  UserEventType_CREATE : string;
  newRecord : NSRecord
}.

(** [{ soTotal, depositTotal }] *)
Record Totals : Type := { soTotal : float; depositTotal : float }.

Definition log_audit (title details : string) : Script unit :=
  hostCall (LogEntry Audit title details) (Normal tt).

Definition log_debug (title details : string) : Script unit :=
  hostCall (LogEntry Debug title details) (Normal tt).

(** [resultSet.each(callback)]: the callback is run on every result in
    turn and stops the iteration by returning [false]; the variable it
    captures and assigns is the state [S]. *)
Fixpoint each {S : Type} (rs : ResultSet) (callback : NSRecord -> S -> S * bool)
    (s : S) : Script S :=
  match rs with
  | rs_done => ret s
  | rs_fail e => throw e
  | rs_next result rest =>
      let (s', continue) := callback result s in
      if continue then each rest callback s' else ret s'
  end.

(** ** The OTP-9678 script

    The script whose header names OTP-9678 (the source file without a
    name): the order total is read with [search.lookupFields] and every
    message is written with [log.audit]. *)

Module OTP9678.
Section WithHost.
Context (H : Host).

Definition getSalesOrderAndDepositTotals (soId : JSValue) : Script Totals :=
  tryCatch
    (soData <- hostCall (LookupFields soId) (search_lookupFields H soId) ;;
     let soTotal := orZero (parseFloat H (soData "total")) in
     let depositTotal := zero in
     depositSearch <- hostCall (SearchCreate soId) (Normal (search_run H soId)) ;;
     depositTotal <- each depositSearch
       (fun result depositTotal =>
          (add depositTotal (orZero (parseFloat H (getValue result "total"))), true))
       depositTotal ;;
     ret {| soTotal := soTotal; depositTotal := depositTotal |})
    (fun e => throw e).

Definition applyRestrictionLogic (execContext : string) (soId : JSValue)
    (soTotal depositTotal : float) : Script unit :=
  tryCatch
    (if (execContext =? USEREVENT H)%string then
       if ltb depositTotal soTotal then
         log_audit "Restriction Bypassed"
           ("Bulk fulfillment detected for Sales Order " ++ ToString H soId
            ++ ". Deposit less than Sales Order total, but restriction bypassed.")
       else
         log_audit "Bulk Fulfillment Allowed"
           ("Deposit sufficient for Sales Order " ++ ToString H soId
            ++ ". Bulk fulfillment proceeding.")
     else
       if ltb depositTotal soTotal then
         throw (VStr ("Cannot fulfill this Sales Order (" ++ ToString H soId
                      ++ "). Total deposit (" ++ ToString H (VNum depositTotal)
                      ++ ") is less than the order total (" ++ ToString H (VNum soTotal)
                      ++ ")."))
       else
         log_audit "Validation Passed"
           ("Deposit sufficient for Sales Order " ++ ToString H soId
            ++ ". Single fulfillment allowed."))
    (fun e => throw e).

Definition handleError (e : JSValue) : Script unit := throw e.

Definition beforeSubmit (scriptContext : ScriptContext) : Script unit :=
  tryCatch
    (if negb (type scriptContext =? UserEventType_CREATE scriptContext)%string then
       ret tt
     else
       let newRec := newRecord scriptContext in
       let execContext := executionContext H in
       let soId := getValue newRec "createdfrom" in
       if negb (toBoolean soId) then
         ret tt
       else
         totals <- getSalesOrderAndDepositTotals soId ;;
         log_audit "Deposit Validation"
           ("Sales Order ID: " ++ ToString H soId
            ++ " | Sales Order Total: " ++ ToString H (VNum (soTotal totals))
            ++ " | Deposit Total: " ++ ToString H (VNum (depositTotal totals))) ;;
         applyRestrictionLogic execContext soId (soTotal totals) (depositTotal totals))
    handleError.

End WithHost.
End OTP9678.

(** ** The OTP-9419 script

    [OTP-9419-Restrict-If-Save/_jj_ue_restrict_item_fullfillment.js]: the
    order is read with [record.load], the early returns and the totals are
    written with [log.debug], and so is "Validation Passed". *)

Module OTP9419.
Section WithHost.
Context (H : Host).

Definition getSalesOrderAndDepositTotals (soId : JSValue) : Script Totals :=
  tryCatch
    (soRec <- hostCall (RecordLoad soId) (record_load H soId) ;;
     let soTotal := orZero (parseFloat H (getValue soRec "total")) in
     let depositTotal := zero in
     depositSearch <- hostCall (SearchCreate soId) (Normal (search_run H soId)) ;;
     depositTotal <- each depositSearch
       (fun result depositTotal =>
          (add depositTotal (orZero (parseFloat H (getValue result "total"))), true))
       depositTotal ;;
     ret {| soTotal := soTotal; depositTotal := depositTotal |})
    (fun e => throw e).

Definition applyRestrictionLogic (execContext : string) (soId : JSValue)
    (soTotal depositTotal : float) : Script unit :=
  tryCatch
    (if (execContext =? USEREVENT H)%string then
       if ltb depositTotal soTotal then
         log_audit "Restriction Bypassed"
           ("Bulk fulfillment detected for Sales Order " ++ ToString H soId
            ++ ". Deposit less than Sales Order total, but restriction bypassed.")
       else
         log_audit "Bulk Fulfillment Allowed"
           ("Deposit sufficient for Sales Order " ++ ToString H soId
            ++ ". Bulk fulfillment proceeding.")
     else
       if ltb depositTotal soTotal then
         throw (VStr ("Cannot fulfill this Sales Order (" ++ ToString H soId
                      ++ "). Total deposit (" ++ ToString H (VNum depositTotal)
                      ++ ") is less than the order total (" ++ ToString H (VNum soTotal)
                      ++ ")."))
       else
         log_debug "Validation Passed"
           ("Deposit sufficient for Sales Order " ++ ToString H soId
            ++ ". Single fulfillment allowed."))
    (fun e => throw e).

Definition handleError (e : JSValue) : Script unit := throw e.

Definition beforeSubmit (scriptContext : ScriptContext) : Script unit :=
  tryCatch
    (if negb (type scriptContext =? UserEventType_CREATE scriptContext)%string then
       log_debug "Exit" "Not a Create operation."
     else
       let newRec := newRecord scriptContext in
       let execContext := executionContext H in
       let soId := getValue newRec "createdfrom" in
       if negb (toBoolean soId) then
         log_debug "Skip" "No Sales Order linked."
       else
         totals <- getSalesOrderAndDepositTotals soId ;;
         log_debug "Deposit Validation"
           ("Sales Order ID: " ++ ToString H soId
            ++ " | Sales Order Total: " ++ ToString H (VNum (soTotal totals))
            ++ " | Deposit Total: " ++ ToString H (VNum (depositTotal totals))) ;;
         applyRestrictionLogic execContext soId (soTotal totals) (depositTotal totals))
    handleError.

End WithHost.
End OTP9419.

(** ** Notions the properties are stated with *)

(** The results a result set yields before it ends, and the error it ends
    with, if any. *)
Fixpoint rs_results (rs : ResultSet) : list NSRecord :=
  match rs with
  | rs_next result rest => result :: rs_results rest
  | _ => []
  end.

Fixpoint rs_error (rs : ResultSet) : option JSValue :=
  match rs with
  | rs_done => None
  | rs_next _ rest => rs_error rest
  | rs_fail e => Some e
  end.

(** The result set that yields the given results and ends normally. *)
Fixpoint rs_of_list (results : list NSRecord) : ResultSet :=
  match results with
  | [] => rs_done
  | result :: rest => rs_next result (rs_of_list rest)
  end.

(** What one deposit adds to the total: [parseFloat(total) || 0]. *)
Definition contribution (H : Host) (result : NSRecord) : float :=
  orZero (parseFloat H (getValue result "total")).

(** The sum as JavaScript computes it: left to right from [0], every
    addition rounded to binary64. *)
Definition floatSum (xs : list float) : float := fold_left add xs zero.

(** The sum of the spec's words: the exact sum of the numbers denoted. *)
Fixpoint arithmeticSum (xs : list float) : option Q :=
  match xs with
  | [] => Some 0%Q
  | x :: rest =>
      match exactQ x, arithmeticSum rest with
      | Some q, Some r => Some (q + r)%Q
      | _, _ => None
      end
  end.

(** [d] denotes the arithmetic sum of [xs]. *)
Definition isArithmeticSum (d : float) (xs : list float) : Prop :=
  match exactQ d, arithmeticSum xs with
  | Some q, Some r => (q == r)%Q
  | _, _ => False
  end.

(** A number is non-negative: [x >= 0]. *)
Definition nonNegative (x : float) : bool := geb x zero.

(** [hay.includes(needle)] *)
Fixpoint includes (hay needle : string) : bool :=
  if String.prefix needle hay then true
  else match hay with
       | EmptyString => false
       | String _ rest => includes rest needle
       end.

Definition isLog (ev : Event) : bool :=
  match ev with LogEntry _ _ _ => true | _ => false end.

Definition isAudit (ev : Event) : bool :=
  match ev with LogEntry Audit _ _ => true | _ => false end.

(** A call of the order lookup or of the deposit search. *)
Definition isLookup (ev : Event) : bool :=
  match ev with LogEntry _ _ _ => false | _ => true end.

(** An event with the level of a log entry forgotten. *)
Definition unlevel (ev : Event) : Event :=
  match ev with
  | LogEntry _ title details => LogEntry Audit title details
  | _ => ev
  end.

(** The decision a run of [applyRestrictionLogic] amounts to. *)
Inductive Decision : Type := Allow | Deny (reason : JSValue).

Definition decision (c : Completion unit) : Decision :=
  match c with
  | Normal _ => Allow
  | Throw e => Deny e
  end.

(** ** The two scripts side by side *)

(** [LookupFieldsScript] is the OTP-9678 script, [RecordLoadScript] the
    OTP-9419 one. *)
Inductive Variant : Type := LookupFieldsScript | RecordLoadScript.

Definition getSalesOrderAndDepositTotalsOf (v : Variant) :=
  match v with
  | LookupFieldsScript => OTP9678.getSalesOrderAndDepositTotals
  | RecordLoadScript => OTP9419.getSalesOrderAndDepositTotals
  end.

Definition applyRestrictionLogicOf (v : Variant) :=
  match v with
  | LookupFieldsScript => OTP9678.applyRestrictionLogic
  | RecordLoadScript => OTP9419.applyRestrictionLogic
  end.

Definition handleErrorOf (v : Variant) :=
  match v with
  | LookupFieldsScript => OTP9678.handleError
  | RecordLoadScript => OTP9419.handleError
  end.

Definition beforeSubmitOf (v : Variant) :=
  match v with
  | LookupFieldsScript => OTP9678.beforeSubmit
  | RecordLoadScript => OTP9419.beforeSubmit
  end.

(** The call a script reads the order with, and the [total] it reads. *)
Definition orderCall (v : Variant) (soId : JSValue) : Event :=
  match v with
  | LookupFieldsScript => LookupFields soId
  | RecordLoadScript => RecordLoad soId
  end.

Definition orderTotalField (v : Variant) (H : Host) (soId : JSValue) : Completion JSValue :=
  match v with
  | LookupFieldsScript =>
      match search_lookupFields H soId with
      | Normal soData => Normal (soData "total")
      | Throw e => Throw e
      end
  | RecordLoadScript =>
      match record_load H soId with
      | Normal soRec => Normal (getValue soRec "total")
      | Throw e => Throw e
      end
  end.

(** The error the lookups of a script end with, if one of them fails: the
    order lookup comes first, the deposit search second. *)
Definition fetchError (v : Variant) (H : Host) (soId : JSValue) : option JSValue :=
  match orderTotalField v H soId with
  | Throw e => Some e
  | Normal _ => rs_error (search_run H soId)
  end.

(** The deposits the search finds for an order. *)
Definition linkedDeposits (H : Host) (soId : JSValue) : list NSRecord :=
  rs_results (search_run H soId).

(** ** A concrete host, for running the scripts on examples *)

Module Sample.

(** The integer a string of decimal digits writes. *)
Fixpoint digits (s : string) (acc : Z) : option Z :=
  match s with
  | EmptyString => Some acc
  | String c rest =>
      let n := Z.of_nat (nat_of_ascii c) in
      if (48 <=? n) && (n <=? 57) then digits rest (10 * acc + (n - 48)) else None
  end.

Definition integerLiteral (s : string) : option Z :=
  match s with
  | EmptyString => None
  | String "-"%char EmptyString => None
  | String "-"%char rest => option_map Z.opp (digits rest 0)
  | _ => digits s 0
  end.

(** [parseFloat] where its result needs no decimal-to-binary rounding of a
    fraction: on a number it is the number (with [-0] read back as [0]), on
    a string that writes an integer it is that integer, and on the empty
    string, on text and on undefined, null and booleans it is NaN. Strings
    with a fraction or an exponent are not used in the examples. *)
Definition parse (v : JSValue) : float :=
  match v with
  | VNum (S754_zero _) => zero
  | VNum n => n
  | VStr s =>
      match integerLiteral s with
      | Some z => ofZ z
      | None => NaN
      end
  | _ => NaN
  end.

(** The number that the decimal literal of [n / 10^k] denotes, as
    [parseFloat] and the language read it: the quotient of two numbers that
    are exact, rounded once (for [|n| < 2^53] and [k <= 22]). *)
Definition decimal (n k : Z) : float := div (ofZ n) (ofZ (10 ^ k)).

(** The integer a number denotes, if it denotes one. *)
Definition integerValue (x : float) : option Z :=
  match x with
  | S754_zero _ => Some 0
  | S754_finite s m e =>
      if 0 <=? e then Some (cond_Zopp s (Zpos m * 2 ^ e))
      else if (Zpos m mod 2 ^ (- e) =? 0) then Some (cond_Zopp s (Zpos m / 2 ^ (- e)))
      else None
  | _ => None
  end.

(** [ToString] on the values of the examples: numbers that denote an
    integer below 10^21 print in decimal. *)
Definition showNumber (x : float) : string :=
  match x with
  | S754_nan => "NaN"
  | S754_infinity false => "Infinity"
  | S754_infinity true => "-Infinity"
  | _ =>
      match integerValue x with
      | Some z => NilZero.string_of_int (Z.to_int z)
      | None => "(fraction)"
      end
  end.

Definition show (v : JSValue) : string :=
  match v with
  | VUndefined => "undefined"
  | VNull => "null"
  | VBool true => "true"
  | VBool false => "false"
  | VNum n => showNumber n
  | VStr s => s
  | VError name message => name ++ ": " ++ message
  end.

Fixpoint field (fields : list (string * JSValue)) (absent : JSValue) (k : string) : JSValue :=
  match fields with
  | [] => absent
  | (k', v) :: rest => if (k =? k')%string then v else field rest absent k
  end.

(** A record whose unset fields read as the empty string. *)
Definition record (fields : list (string * JSValue)) : NSRecord :=
  {| getValue := field fields (VStr "") |}.

Definition deposit (total : JSValue) : NSRecord := record [("total", total)].

Definition deposits (totals : list JSValue) : ResultSet :=
  rs_of_list (map deposit totals).

(** A host in execution context [ctx] where the sales order has the given
    [total] field and the deposit search gives [found]. *)
Definition host (ctx : string) (total : JSValue) (found : ResultSet) : Host :=
  {| parseFloat := parse;
     ToString := show;
     executionContext := ctx;
     USEREVENT := "USEREVENT";
     search_lookupFields := fun _ => Normal (field [("total", total)] VUndefined);
     record_load := fun _ => Normal (record [("total", total)]);
     search_run := fun _ => found |}.

(** A host whose order lookup fails with [e]. *)
Definition hostWithoutOrders (ctx : string) (e : JSValue) : Host :=
  {| parseFloat := parse;
     ToString := show;
     executionContext := ctx;
     USEREVENT := "USEREVENT";
     search_lookupFields := fun _ => Throw e;
     record_load := fun _ => Throw e;
     search_run := fun _ => rs_done |}.

(** The user event of operation [operation] on a fulfilment created from
    [createdfrom]. *)
Definition event (operation : string) (createdfrom : JSValue) : ScriptContext :=
  {| type := operation;
     UserEventType_CREATE := "create";
     newRecord := record [("createdfrom", createdfrom)] |}.

(** A fulfilment that is linked to no order. *)
Definition unlinkedEvent (operation : string) : ScriptContext :=
  {| type := operation;
     UserEventType_CREATE := "create";
     newRecord := record [] |}.

Definition platformError : JSValue :=
  VError "SSS_REQUEST_TIME_EXCEEDED" "The host did not answer.".

End Sample.

(** ** What the two scripts may differ in *)

(** An event with the level of a log entry and the call that read the
    order forgotten: [search.lookupFields] and [record.load] of the same
    id count as the same read. *)
Definition forgetVariant (ev : Event) : Event :=
  match ev with
  | LogEntry _ title details => LogEntry Audit title details
  | LookupFields id => LookupFields id
  | RecordLoad id => LookupFields id
  | SearchCreate id => SearchCreate id
  end.

(** The debug entries of the early returns, which the OTP-9419 script alone
    writes: ("Exit", "Not a Create operation.") and
    ("Skip", "No Sales Order linked."). *)
Definition isEarlyReturnEntry (ev : Event) : bool :=
  match ev with
  | LogEntry Debug title details =>
      ((title =? "Exit") && (details =? "Not a Create operation."))%string
      || ((title =? "Skip") && (details =? "No Sales Order linked."))%string
  | _ => false
  end.

(** ** Notions of the further properties *)

Definition isNaN (x : float) : bool :=
  match x with S754_nan => true | _ => false end.

Definition isInfinite (x : float) : bool :=
  match x with S754_infinity _ => true | _ => false end.

(** Zero, a positive number or positive infinity: no sign bit, not NaN. *)
Definition unsigned (x : float) : bool :=
  match x with
  | S754_zero false | S754_infinity false | S754_finite false _ _ => true
  | _ => false
  end.

(** A deposit that adds nothing: its total parses to NaN or to a zero. *)
Definition blank (H : Host) (result : NSRecord) : bool :=
  negb (truthy (parseFloat H (getValue result "total"))).

(** The message of a denial and the details of the "Deposit Validation"
    entry, as the template literals of the scripts build them. *)
Definition denialMessage (H : Host) (soId : JSValue) (soTotal depositTotal : float) : string :=
  "Cannot fulfill this Sales Order (" ++ ToString H soId
  ++ "). Total deposit (" ++ ToString H (VNum depositTotal)
  ++ ") is less than the order total (" ++ ToString H (VNum soTotal)
  ++ ").".

Definition validationDetails (H : Host) (soId : JSValue) (soTotal depositTotal : float) : string :=
  "Sales Order ID: " ++ ToString H soId
  ++ " | Sales Order Total: " ++ ToString H (VNum soTotal)
  ++ " | Deposit Total: " ++ ToString H (VNum depositTotal).

(** The level a script writes the "Deposit Validation" entry at. *)
Definition validationLevel (v : Variant) : LogLevel :=
  match v with
  | LookupFieldsScript => Audit
  | RecordLoadScript => Debug
  end.

(** * Properties *)

(** ** Comparison of numbers *)

Lemma SFcompare_Lt_swap (x y : float) :
  SFcompare x y = Some Lt -> SFcompare y x = Some Gt.
Proof.
  destruct x as [sx|sx| |sx mx ex], y as [sy|sy| |sy my ey]; simpl;
    try discriminate; try reflexivity;
    try (destruct sx; discriminate || reflexivity);
    try (destruct sy; discriminate || reflexivity).
  - destruct sx, sy; simpl; intros H; try discriminate; reflexivity.
  - change (Pos.compare_cont Eq mx my) with (Pos.compare mx my).
    change (Pos.compare_cont Eq my mx) with (Pos.compare my mx).
    rewrite (Z.compare_antisym ex ey), (Pos.compare_antisym mx my).
    destruct sx, sy; simpl; intros H; try discriminate; try reflexivity;
    destruct (ex ?= ey); simpl in *; try discriminate; try reflexivity;
    destruct (mx ?= my)%positive; simpl in *; congruence.
Qed.

Lemma geb_not_ltb (x y : float) : geb x y = true -> ltb x y = false.
Proof.
  unfold geb, ltb, SFleb, SFltb. intros H.
  destruct (SFcompare x y) as [[| |]|] eqn:E; try reflexivity.
  apply SFcompare_Lt_swap in E. rewrite E in H. discriminate.
Qed.

Lemma nonNegative_cases (x : float) :
  nonNegative x = true <->
  (exists s, x = S754_zero s) \/ x = S754_infinity false
  \/ (exists m e, x = S754_finite false m e).
Proof.
  unfold nonNegative, geb, SFleb, zero. split.
  - destruct x as [s|[|]| |[|] m e]; simpl; try discriminate; intros _; eauto.
  - intros [[s ->]|[->|[m [e ->]]]]; reflexivity.
Qed.

Lemma orZero_not_nan (x : float) : orZero x <> NaN.
Proof. destruct x; simpl; discriminate. Qed.

Lemma orZero_nan : orZero NaN = zero.
Proof. reflexivity. Qed.

Lemma orZero_nonNegative (x : float) :
  ltb x zero = false -> nonNegative (orZero x) = true.
Proof.
  destruct x as [s|[|]| |[|] m e]; simpl; try discriminate; reflexivity.
Qed.

(** ** Rounding keeps the sign *)

Lemma shr_1_nonneg (mrs : shr_record) : 0 <= shr_m mrs -> 0 <= shr_m (shr_1 mrs).
Proof.
  destruct mrs as [m r s]; simpl. intros Hm.
  destruct m as [|[p|p|]|p]; simpl; lia.
Qed.

Lemma iter_pos_invariant {A : Type} (P : A -> Prop) (f : A -> A) :
  (forall a, P a -> P (f a)) -> forall p a, P a -> P (iter_pos f p a).
Proof.
  intros Hf. induction p as [p IH|p IH|]; simpl; intros a Ha; auto.
Qed.

Lemma shr_nonneg (mrs : shr_record) (e n : Z) :
  0 <= shr_m mrs -> 0 <= shr_m (fst (shr mrs e n)).
Proof.
  intros Hm. destruct n as [|p|p]; simpl; auto.
  apply (iter_pos_invariant (fun r => 0 <= shr_m r)); auto using shr_1_nonneg.
Qed.

Lemma shr_fexp_nonneg (m e : Z) (l : location) :
  0 <= m -> 0 <= shr_m (fst (shr_fexp prec emax m e l)).
Proof.
  intros Hm. unfold shr_fexp. apply shr_nonneg.
  destruct l as [|[| |]]; simpl; assumption.
Qed.

Lemma round_nearest_even_nonneg (m : Z) (l : location) :
  0 <= m -> 0 <= round_nearest_even m l.
Proof.
  intros Hm. destruct l as [|[| |]]; simpl; try lia.
  destruct (Z.even m); lia.
Qed.

Lemma binary_round_aux_nonNegative (m e : Z) (l : location) :
  0 <= m -> nonNegative (binary_round_aux prec emax false m e l) = true.
Proof.
  intros Hm. unfold binary_round_aux.
  pose proof (shr_fexp_nonneg m e l Hm) as H1.
  destruct (shr_fexp prec emax m e l) as [mrs' e']. simpl in H1.
  pose proof (shr_fexp_nonneg _ e' loc_Exact
                (round_nearest_even_nonneg _ (loc_of_shr_record mrs') H1)) as H2.
  destruct (shr_fexp prec emax _ e' loc_Exact) as [mrs'' e'']. simpl in H2.
  destruct (shr_m mrs'') as [|p|p].
  - reflexivity.
  - destruct (e'' <=? emax - prec); reflexivity.
  - lia.
Qed.

Lemma add_nonNegative (x y : float) :
  nonNegative x = true -> nonNegative y = true -> nonNegative (add x y) = true.
Proof.
  intros Hx Hy.
  apply nonNegative_cases in Hx. apply nonNegative_cases in Hy.
  destruct Hx as [[sx ->]|[->|[mx [ex ->]]]], Hy as [[sy ->]|[->|[my [ey ->]]]];
    try reflexivity; try (destruct sx; reflexivity).
  - destruct sx, sy; reflexivity.
  - unfold add, SFadd. cbv [cond_Zopp]. cbn [Z.add].
    unfold binary_normalize, binary_round.
    destruct (shl_align _ _ _) as [mz ez].
    apply binary_round_aux_nonNegative. lia.
Qed.

(** ** Running the scripts *)

Lemma each_sums (H : Host) (rs : ResultSet) (acc : float) (tr : Trace) :
  each rs
    (fun result depositTotal =>
       (add depositTotal (orZero (parseFloat H (getValue result "total"))), true))
    acc tr
  = (match rs_error rs with
     | Some e => Throw e
     | None => Normal (fold_left add (map (contribution H) (rs_results rs)) acc)
     end, tr).
Proof.
  revert acc. induction rs as [|result rest IH|e]; intros acc; simpl.
  - reflexivity.
  - apply IH.
  - reflexivity.
Qed.

Lemma totals_run (v : Variant) (H : Host) (soId : JSValue) (tr : Trace) :
  getSalesOrderAndDepositTotalsOf v H soId tr =
  match orderTotalField v H soId with
  | Throw e => (Throw e, tr ++ [orderCall v soId])
  | Normal t =>
      (match rs_error (search_run H soId) with
       | Some e => Throw e
       | None => Normal {| soTotal := orZero (parseFloat H t);
                           depositTotal := floatSum (map (contribution H) (linkedDeposits H soId)) |}
       end, tr ++ [orderCall v soId; SearchCreate soId])
  end%list.
Proof.
  destruct v; simpl;
    unfold OTP9678.getSalesOrderAndDepositTotals, OTP9419.getSalesOrderAndDepositTotals,
      tryCatch, bind, hostCall, ret, throw, floatSum, linkedDeposits.
  - destruct (search_lookupFields H soId) as [soData|e]; [|reflexivity].
    rewrite each_sums, <- app_assoc. simpl.
    destruct (rs_error (search_run H soId)); reflexivity.
  - destruct (record_load H soId) as [soRec|e]; [|reflexivity].
    rewrite each_sums, <- app_assoc. simpl.
    destruct (rs_error (search_run H soId)); reflexivity.
Qed.

Lemma restriction_run (v : Variant) (H : Host) (execContext : string) (soId : JSValue)
    (soTotal depositTotal : float) (tr : Trace) :
  applyRestrictionLogicOf v H execContext soId soTotal depositTotal tr =
  if (execContext =? USEREVENT H)%string then
    if ltb depositTotal soTotal then
      (Normal tt, tr ++ [LogEntry Audit "Restriction Bypassed"
         ("Bulk fulfillment detected for Sales Order " ++ ToString H soId
          ++ ". Deposit less than Sales Order total, but restriction bypassed.")]%string)%list
    else
      (Normal tt, tr ++ [LogEntry Audit "Bulk Fulfillment Allowed"
         ("Deposit sufficient for Sales Order " ++ ToString H soId
          ++ ". Bulk fulfillment proceeding.")]%string)%list
  else
    if ltb depositTotal soTotal then
      (Throw (VStr ("Cannot fulfill this Sales Order (" ++ ToString H soId
                    ++ "). Total deposit (" ++ ToString H (VNum depositTotal)
                    ++ ") is less than the order total (" ++ ToString H (VNum soTotal)
                    ++ ").")), tr)
    else
      (Normal tt, tr ++ [LogEntry match v with LookupFieldsScript => Audit | RecordLoadScript => Debug end
         "Validation Passed"
         ("Deposit sufficient for Sales Order " ++ ToString H soId
          ++ ". Single fulfillment allowed.")]%string)%list.
Proof.
  destruct v; simpl;
    unfold OTP9678.applyRestrictionLogic, OTP9419.applyRestrictionLogic, tryCatch;
    destruct (execContext =? USEREVENT H)%string, (ltb depositTotal soTotal); reflexivity.
Qed.

(** ** Text *)

Lemma prefix_append (needle post : string) : String.prefix needle (needle ++ post) = true.
Proof.
  induction needle as [|c needle IH]; simpl; [destruct post; reflexivity|].
  destruct (ascii_dec c c); [assumption | congruence].
Qed.

Lemma includes_unfold (hay needle : string) :
  includes hay needle =
  if String.prefix needle hay then true
  else match hay with
       | EmptyString => false
       | String _ rest => includes rest needle
       end.
Proof. destruct hay; reflexivity. Qed.

Lemma includes_append (pre needle post : string) :
  includes (pre ++ needle ++ post) needle = true.
Proof.
  induction pre as [|c pre IH].
  - simpl. rewrite includes_unfold, prefix_append. reflexivity.
  - rewrite includes_unfold. simpl. rewrite IH.
    match goal with |- (if ?b then _ else _) = _ => destruct b; reflexivity end.
Qed.

Lemma includes_after (pre needle rest : string) :
  includes rest needle = true -> includes (pre ++ rest) needle = true.
Proof.
  intros Hr. induction pre as [|c pre IH]; simpl; [assumption|].
  rewrite IH.
  match goal with |- (if ?b then _ else _) = _ => destruct b; reflexivity end.
Qed.

Lemma eqb_geb (x y : float) : eqb x y = true -> geb x y = true.
Proof.
  unfold eqb, geb, SFeqb, SFleb.
  destruct x as [sx|sx| |sx mx ex], y as [sy|sy| |sy my ey]; simpl;
    try discriminate; try reflexivity;
    try (destruct sx; discriminate || reflexivity);
    try (destruct sy; discriminate || reflexivity).
  - destruct sx, sy; simpl; intros H; try discriminate; reflexivity.
  - change (Pos.compare_cont Eq mx my) with (Pos.compare mx my).
    change (Pos.compare_cont Eq my mx) with (Pos.compare my mx).
    rewrite (Z.compare_antisym ex ey), (Pos.compare_antisym mx my).
    destruct sx, sy; simpl; intros H; try discriminate; try reflexivity;
    destruct (ex ?= ey); simpl in *; try discriminate; try reflexivity;
    destruct (mx ?= my)%positive; simpl in *; congruence.
Qed.

(** ** The decision *)

Lemma allow_when_not_less (v : Variant) (H : Host) (execContext : string) (soId : JSValue)
    (soTotal depositTotal : float) (tr : Trace) :
  ltb depositTotal soTotal = false ->
  decision (fst (applyRestrictionLogicOf v H execContext soId soTotal depositTotal tr)) = Allow.
Proof.
  intros Hlt. rewrite restriction_run, Hlt.
  destruct (execContext =? USEREVENT H)%string; reflexivity.
Qed.

Lemma decision_allow (c : Completion unit) : decision c = Allow -> c = Normal tt.
Proof. destruct c as [[]|e]; [reflexivity | discriminate]. Qed.

(** C1. When [depositTotal >= soTotal], which includes the boundary
    [depositTotal == soTotal], [applyRestrictionLogic] completes normally
    (Allow) and throws no denial, whatever the execution context, in both
    scripts: the test of the policy is the strict [depositTotal < soTotal]. *)
Theorem C1_sufficient_deposit_allows (v : Variant) (H : Host) (execContext : string)
    (soId : JSValue) (soTotal depositTotal : float) (tr : Trace) :
  geb depositTotal soTotal = true \/ eqb depositTotal soTotal = true ->
  ltb depositTotal soTotal = false /\
  decision (fst (applyRestrictionLogicOf v H execContext soId soTotal depositTotal tr)) = Allow.
Proof.
  intros Hge.
  assert (Hlt : ltb depositTotal soTotal = false).
  { apply geb_not_ltb. destruct Hge as [Hge|Heq]; [assumption | now apply eqb_geb]. }
  split; [assumption|].
  now apply allow_when_not_less.
Qed.

(** Scenario A and the boundary: an order of 1000 with deposits of 1200
    outside the user-event context, and deposits of exactly 1000 in it. *)
Lemma C1_witness :
  (geb (ofZ 1200) (ofZ 1000) = true /\
   (ltb (ofZ 1200) (ofZ 1000) = false /\
    decision (fst (OTP9678.applyRestrictionLogic (Sample.host "SUITELET" VNull rs_done)
                     "SUITELET" (VStr "77") (ofZ 1000) (ofZ 1200) [])) = Allow)) /\
  (eqb (ofZ 1000) (ofZ 1000) = true /\
   (ltb (ofZ 1000) (ofZ 1000) = false /\
    decision (fst (OTP9419.applyRestrictionLogic (Sample.host "USEREVENT" VNull rs_done)
                     "USEREVENT" (VStr "77") (ofZ 1000) (ofZ 1000) [])) = Allow)).
Proof.
  split.
  - split; [reflexivity|].
    apply (C1_sufficient_deposit_allows LookupFieldsScript). left. reflexivity.
  - split; [reflexivity|].
    apply (C1_sufficient_deposit_allows RecordLoadScript). right. reflexivity.
Defined.

(** C2. When [depositTotal < soTotal] and the execution context is not the
    user-event one, [applyRestrictionLogic] throws (Deny), in both scripts
    the same message, without logging; the message contains the sales
    order reference, the deposit total and the order total as the template
    literal prints them. *)
Theorem C2_insufficient_deposit_denies (v : Variant) (H : Host) (execContext : string)
    (soId : JSValue) (soTotal depositTotal : float) (tr : Trace) :
  ltb depositTotal soTotal = true ->
  execContext <> USEREVENT H ->
  exists message,
    applyRestrictionLogicOf v H execContext soId soTotal depositTotal tr
      = (Throw (VStr message), tr) /\
    message = ("Cannot fulfill this Sales Order (" ++ ToString H soId
               ++ "). Total deposit (" ++ ToString H (VNum depositTotal)
               ++ ") is less than the order total (" ++ ToString H (VNum soTotal)
               ++ ").")%string /\
    includes message (ToString H soId) = true /\
    includes message (ToString H (VNum depositTotal)) = true /\
    includes message (ToString H (VNum soTotal)) = true.
Proof.
  intros Hlt Hctx. eexists. split; [|split; [reflexivity|]].
  - rewrite restriction_run, Hlt.
    apply String.eqb_neq in Hctx. rewrite Hctx. reflexivity.
  - repeat split.
    + apply includes_append.
    + apply includes_after, includes_after, includes_append.
    + do 4 apply includes_after. apply includes_append.
Qed.

(** Scenario B: an order of 1000 with deposits of 400 outside the
    user-event context is denied, and the message cites 77, 400 and 1000. *)
Lemma C2_witness :
  ltb (ofZ 400) (ofZ 1000) = true /\
  "SUITELET" <> USEREVENT (Sample.host "SUITELET" VNull rs_done) /\
  exists message,
    OTP9678.applyRestrictionLogic (Sample.host "SUITELET" VNull rs_done)
      "SUITELET" (VStr "77") (ofZ 1000) (ofZ 400) [] = (Throw (VStr message), []) /\
    message = "Cannot fulfill this Sales Order (77). Total deposit (400) is less than the order total (1000)." /\
    includes message "77" = true /\
    includes message "400" = true /\
    includes message "1000" = true.
Proof.
  split; [reflexivity|]. split; [discriminate|].
  apply (C2_insufficient_deposit_denies LookupFieldsScript
           (Sample.host "SUITELET" VNull rs_done) "SUITELET" (VStr "77")
           (ofZ 1000) (ofZ 400) []); [reflexivity | discriminate].
Defined.

(** C3. When [depositTotal < soTotal] and the execution context is the
    user-event one, [applyRestrictionLogic] completes normally (Allow, the
    bypass) and throws nothing, in both scripts; it leaves the audit entry
    "Restriction Bypassed". *)
Theorem C3_user_event_bypasses (v : Variant) (H : Host) (soId : JSValue)
    (soTotal depositTotal : float) (tr : Trace) :
  ltb depositTotal soTotal = true ->
  decision (fst (applyRestrictionLogicOf v H (USEREVENT H) soId soTotal depositTotal tr)) = Allow /\
  applyRestrictionLogicOf v H (USEREVENT H) soId soTotal depositTotal tr =
    (Normal tt,
     tr ++ [LogEntry Audit "Restriction Bypassed"
              ("Bulk fulfillment detected for Sales Order " ++ ToString H soId
               ++ ". Deposit less than Sales Order total, but restriction bypassed.")%string])%list.
Proof.
  intros Hlt. rewrite restriction_run, Hlt, String.eqb_refl. split; reflexivity.
Qed.

(** Scenario C: the order of 1000 with deposits of 400 in the user-event
    context. *)
Lemma C3_witness :
  ltb (ofZ 400) (ofZ 1000) = true /\
  decision (fst (OTP9419.applyRestrictionLogic (Sample.host "USEREVENT" VNull rs_done)
                   "USEREVENT" (VStr "77") (ofZ 1000) (ofZ 400) [])) = Allow.
Proof.
  split; [reflexivity|].
  apply (C3_user_event_bypasses RecordLoadScript
           (Sample.host "USEREVENT" VNull rs_done) (VStr "77") (ofZ 1000) (ofZ 400) []).
  reflexivity.
Defined.

(** On the same execution context, order reference and totals,
    [applyRestrictionLogic] of the one script and of the other complete in
    the same way, normally or throwing the same message, and leave the
    same log entries up to their level. *)
Lemma restriction_logic_decides_alike (H : Host) (execContext : string) (soId : JSValue)
    (soTotal depositTotal : float) (tr : Trace) :
  fst (OTP9678.applyRestrictionLogic H execContext soId soTotal depositTotal tr)
    = fst (OTP9419.applyRestrictionLogic H execContext soId soTotal depositTotal tr) /\
  map unlevel (snd (OTP9678.applyRestrictionLogic H execContext soId soTotal depositTotal tr))
    = map unlevel (snd (OTP9419.applyRestrictionLogic H execContext soId soTotal depositTotal tr)).
Proof.
  pose proof (restriction_run LookupFieldsScript H execContext soId soTotal depositTotal tr) as E1.
  pose proof (restriction_run RecordLoadScript H execContext soId soTotal depositTotal tr) as E2.
  simpl in E1, E2. rewrite E1, E2.
  destruct (execContext =? USEREVENT H)%string, (ltb depositTotal soTotal);
    split; try reflexivity.
  simpl. rewrite !map_app. reflexivity.
Qed.

(** ** The entry point *)

Lemma beforeSubmit_run (v : Variant) (H : Host) (sc : ScriptContext) (tr : Trace) :
  beforeSubmitOf v H sc tr =
  if negb (type sc =? UserEventType_CREATE sc)%string then
    (Normal tt,
     tr ++ match v with
           | LookupFieldsScript => []
           | RecordLoadScript => [LogEntry Debug "Exit" "Not a Create operation."]
           end)%list
  else if negb (toBoolean (getValue (newRecord sc) "createdfrom")) then
    (Normal tt,
     tr ++ match v with
           | LookupFieldsScript => []
           | RecordLoadScript => [LogEntry Debug "Skip" "No Sales Order linked."]
           end)%list
  else
    let soId := getValue (newRecord sc) "createdfrom" in
    match getSalesOrderAndDepositTotalsOf v H soId tr with
    | (Throw e, tr') => (Throw e, tr')
    | (Normal totals, tr') =>
        applyRestrictionLogicOf v H (executionContext H) soId
          (soTotal totals) (depositTotal totals)
          (tr' ++ [LogEntry match v with LookupFieldsScript => Audit | RecordLoadScript => Debug end
                     "Deposit Validation"
                     ("Sales Order ID: " ++ ToString H soId
                      ++ " | Sales Order Total: " ++ ToString H (VNum (soTotal totals))
                      ++ " | Deposit Total: " ++ ToString H (VNum (depositTotal totals)))%string])%list
    end.
Proof.
  destruct v;
    cbv [beforeSubmitOf getSalesOrderAndDepositTotalsOf applyRestrictionLogicOf
         OTP9678.beforeSubmit OTP9419.beforeSubmit OTP9678.handleError OTP9419.handleError
         tryCatch].
  - destruct (negb (type sc =? UserEventType_CREATE sc)%string).
    { simpl. rewrite app_nil_r. reflexivity. }
    destruct (negb (toBoolean (getValue (newRecord sc) "createdfrom"))).
    { simpl. rewrite app_nil_r. reflexivity. }
    unfold bind.
    destruct (OTP9678.getSalesOrderAndDepositTotals H _ tr) as [[totals|e] tr']; [|reflexivity].
    unfold log_audit, hostCall.
    match goal with |- match ?run with _ => _ end = _ => destruct run as [[u|e] tr''] end;
      reflexivity.
  - destruct (negb (type sc =? UserEventType_CREATE sc)%string); [reflexivity|].
    destruct (negb (toBoolean (getValue (newRecord sc) "createdfrom"))); [reflexivity|].
    unfold bind.
    destruct (OTP9419.getSalesOrderAndDepositTotals H _ tr) as [[totals|e] tr']; [|reflexivity].
    unfold log_debug, hostCall.
    match goal with |- match ?run with _ => _ end = _ => destruct run as [[u|e] tr''] end;
      reflexivity.
Qed.

(** C4, as the scripts have it. For an event whose operation is not
    CREATE, [beforeSubmit] returns at once without looking up the order,
    searching deposits, deciding or denying: the OTP-9678 script leaves the
    trace as it was; the OTP-9419 script first writes one debug entry,
    ("Exit", "Not a Create operation."), and nothing else. *)
Theorem C4_other_operations_are_skipped (H : Host) (sc : ScriptContext) (tr : Trace) :
  type sc <> UserEventType_CREATE sc ->
  OTP9678.beforeSubmit H sc tr = (Normal tt, tr) /\
  OTP9419.beforeSubmit H sc tr
    = (Normal tt, (tr ++ [LogEntry Debug "Exit" "Not a Create operation."])%list).
Proof.
  intros Hty. apply String.eqb_neq in Hty.
  pose proof (beforeSubmit_run LookupFieldsScript H sc tr) as E1.
  pose proof (beforeSubmit_run RecordLoadScript H sc tr) as E2.
  rewrite Hty in E1, E2. simpl in E1, E2. rewrite app_nil_r in E1.
  split; assumption.
Qed.

(** Scenario E: an edit of a fulfilment of order 77, whose deposits of 400
    do not cover its total of 1000. *)
Lemma C4_witness :
  type (Sample.event "edit" (VStr "77"))
    <> UserEventType_CREATE (Sample.event "edit" (VStr "77")) /\
  OTP9678.beforeSubmit (Sample.host "SUITELET" (VStr "1000") (Sample.deposits [VStr "400"]))
    (Sample.event "edit" (VStr "77")) [] = (Normal tt, []) /\
  OTP9419.beforeSubmit (Sample.host "SUITELET" (VStr "1000") (Sample.deposits [VStr "400"]))
    (Sample.event "edit" (VStr "77")) []
    = (Normal tt, [LogEntry Debug "Exit" "Not a Create operation."]).
Proof.
  split; [discriminate|].
  apply (C4_other_operations_are_skipped
           (Sample.host "SUITELET" (VStr "1000") (Sample.deposits [VStr "400"]))
           (Sample.event "edit" (VStr "77")) []).
  discriminate.
Defined.

(** C4 as stated fails on the OTP-9419 script: on an edit it has an effect,
    the debug entry it writes before it returns. *)
Lemma C4_counterexample :
  type (Sample.event "edit" (VStr "77"))
    <> UserEventType_CREATE (Sample.event "edit" (VStr "77")) /\
  snd (OTP9419.beforeSubmit (Sample.host "SUITELET" (VStr "1000") (Sample.deposits [VStr "400"]))
         (Sample.event "edit" (VStr "77")) [])
    = [LogEntry Debug "Exit" "Not a Create operation."] /\
  snd (OTP9419.beforeSubmit (Sample.host "SUITELET" (VStr "1000") (Sample.deposits [VStr "400"]))
         (Sample.event "edit" (VStr "77")) []) <> [].
Proof.
  split; [discriminate|]. split; [reflexivity | discriminate].
Qed.

(** C5. For a CREATE event whose new record has no "created from"
    reference (the field reads as a falsy value), [beforeSubmit] returns
    normally in both scripts, having written no audit entry and called
    neither the order lookup nor the deposit search: the OTP-9678 script
    leaves the trace as it was, the OTP-9419 script adds the debug entry
    ("Skip", "No Sales Order linked."). *)
Theorem C5_unlinked_fulfilment_is_skipped (v : Variant) (H : Host) (sc : ScriptContext)
    (tr : Trace) :
  type sc = UserEventType_CREATE sc ->
  toBoolean (getValue (newRecord sc) "createdfrom") = false ->
  exists added,
    beforeSubmitOf v H sc tr = (Normal tt, (tr ++ added)%list) /\
    added = match v with
            | LookupFieldsScript => []
            | RecordLoadScript => [LogEntry Debug "Skip" "No Sales Order linked."]
            end /\
    existsb isAudit added = false /\
    existsb isLookup added = false.
Proof.
  intros Hty Hso. eexists. split; [|split; [reflexivity|]].
  - rewrite beforeSubmit_run, Hty, String.eqb_refl, Hso. reflexivity.
  - destruct v; split; reflexivity.
Qed.

(** Scenario D: the creation of a fulfilment that is linked to no order. *)
Lemma C5_witness :
  type (Sample.unlinkedEvent "create") = UserEventType_CREATE (Sample.unlinkedEvent "create") /\
  toBoolean (getValue (newRecord (Sample.unlinkedEvent "create")) "createdfrom") = false /\
  exists added,
    OTP9419.beforeSubmit (Sample.host "SUITELET" (VStr "1000") (Sample.deposits [VStr "400"]))
      (Sample.unlinkedEvent "create") [] = (Normal tt, added) /\
    added = [LogEntry Debug "Skip" "No Sales Order linked."] /\
    existsb isAudit added = false /\
    existsb isLookup added = false.
Proof.
  split; [reflexivity|]. split; [reflexivity|].
  apply (C5_unlinked_fulfilment_is_skipped RecordLoadScript
           (Sample.host "SUITELET" (VStr "1000") (Sample.deposits [VStr "400"]))
           (Sample.unlinkedEvent "create") []); reflexivity.
Defined.

Lemma restriction_completion_any_trace (v v' : Variant) (H : Host) (execContext : string)
    (soId : JSValue) (soTotal depositTotal : float) (tr tr' : Trace) :
  fst (applyRestrictionLogicOf v H execContext soId soTotal depositTotal tr)
    = fst (applyRestrictionLogicOf v' H execContext soId soTotal depositTotal tr').
Proof.
  rewrite !restriction_run.
  destruct (execContext =? USEREVENT H)%string, (ltb depositTotal soTotal); reflexivity.
Qed.

(** X12. When the two ways of reading the order give the same [total], the
    two entry points complete alike on every event. *)
Lemma entry_points_complete_alike (H : Host) (sc : ScriptContext) (tr : Trace) :
  orderTotalField LookupFieldsScript H (getValue (newRecord sc) "createdfrom")
    = orderTotalField RecordLoadScript H (getValue (newRecord sc) "createdfrom") ->
  fst (OTP9678.beforeSubmit H sc tr) = fst (OTP9419.beforeSubmit H sc tr).
Proof.
  intros Hsame.
  change (fst (beforeSubmitOf LookupFieldsScript H sc tr)
          = fst (beforeSubmitOf RecordLoadScript H sc tr)).
  rewrite !beforeSubmit_run.
  destruct (negb (type sc =? UserEventType_CREATE sc)%string); [reflexivity|].
  destruct (negb (toBoolean (getValue (newRecord sc) "createdfrom"))); [reflexivity|].
  cbv zeta. rewrite !totals_run, Hsame.
  destruct (orderTotalField RecordLoadScript H _) as [t|e]; [|reflexivity].
  destruct (rs_error (search_run H _)) as [e|]; [reflexivity|].
  apply restriction_completion_any_trace.
Qed.

(** C9, as the scripts have it. The two scripts implement the same
    decision: on the same execution context, order reference and totals,
    [applyRestrictionLogic] of both complete alike, normally or throwing
    the same message, with the same log entries up to their level. Beyond
    the way the order total is read and the levels of the log entries, the
    scripts differ in the debug entries of the early returns, ("Exit",
    "Not a Create operation.") and ("Skip", "No Sales Order linked."),
    which the OTP-9419 script alone writes: when both ways of reading the
    order give the same, the two [beforeSubmit] complete alike, and what
    they add to the trace is the same once those entries are left out and
    levels and the reading call are forgotten. *)
Theorem C9_scripts_differ_in_fetch_levels_and_early_entries (H : Host)
    (execContext : string) (soId : JSValue) (soTotal depositTotal : float)
    (sc : ScriptContext) (tr : Trace) :
  (fst (OTP9678.applyRestrictionLogic H execContext soId soTotal depositTotal tr)
     = fst (OTP9419.applyRestrictionLogic H execContext soId soTotal depositTotal tr) /\
   map unlevel (snd (OTP9678.applyRestrictionLogic H execContext soId soTotal depositTotal tr))
     = map unlevel (snd (OTP9419.applyRestrictionLogic H execContext soId soTotal depositTotal tr))) /\
  (orderTotalField LookupFieldsScript H (getValue (newRecord sc) "createdfrom")
     = orderTotalField RecordLoadScript H (getValue (newRecord sc) "createdfrom") ->
   fst (OTP9678.beforeSubmit H sc tr) = fst (OTP9419.beforeSubmit H sc tr) /\
   exists added added',
     snd (OTP9678.beforeSubmit H sc tr) = (tr ++ added)%list /\
     snd (OTP9419.beforeSubmit H sc tr) = (tr ++ added')%list /\
     map forgetVariant added
       = map forgetVariant (filter (fun ev => negb (isEarlyReturnEntry ev)) added')).
Proof.
  split; [apply restriction_logic_decides_alike|].
  intros Hsame.
  change (OTP9678.beforeSubmit H sc tr) with (beforeSubmitOf LookupFieldsScript H sc tr).
  change (OTP9419.beforeSubmit H sc tr) with (beforeSubmitOf RecordLoadScript H sc tr).
  rewrite !beforeSubmit_run.
  destruct (negb (type sc =? UserEventType_CREATE sc)%string);
    [split; [reflexivity | eexists [], [_]; repeat split; reflexivity]|].
  destruct (negb (toBoolean (getValue (newRecord sc) "createdfrom")));
    [split; [reflexivity | eexists [], [_]; repeat split; reflexivity]|].
  cbv zeta. rewrite !totals_run, Hsame.
  destruct (orderTotalField RecordLoadScript H _) as [t|e];
    [|split; [reflexivity | eexists [_], [_]; repeat split; reflexivity]].
  destruct (rs_error (search_run H _)) as [e|];
    [split; [reflexivity | eexists [_; _], [_; _]; repeat split; reflexivity]|].
  rewrite !restriction_run.
  destruct (executionContext H =? USEREVENT H)%string; destruct (ltb _ _);
    simpl fst; simpl snd; rewrite <- ?app_assoc;
    (split; [reflexivity|]);
    first [ eexists [_; _; _; _], [_; _; _; _]; repeat split; reflexivity
          | eexists [_; _; _], [_; _; _]; repeat split; reflexivity ].
Qed.

(** The two scripts on the creation of a fulfilment of order 77, of 1000
    with deposits of 150 and 250, in a Suitelet: both deny, having made
    the same calls and logged the same totals. *)
Lemma C9_witness :
  orderTotalField LookupFieldsScript
    (Sample.host "SUITELET" (VStr "1000") (Sample.deposits [VStr "150"; VStr "250"]))
    (VStr "77")
  = orderTotalField RecordLoadScript
      (Sample.host "SUITELET" (VStr "1000") (Sample.deposits [VStr "150"; VStr "250"]))
      (VStr "77") /\
  fst (OTP9678.beforeSubmit
         (Sample.host "SUITELET" (VStr "1000") (Sample.deposits [VStr "150"; VStr "250"]))
         (Sample.event "create" (VStr "77")) [])
  = fst (OTP9419.beforeSubmit
           (Sample.host "SUITELET" (VStr "1000") (Sample.deposits [VStr "150"; VStr "250"]))
           (Sample.event "create" (VStr "77")) []).
Proof.
  split; [reflexivity|].
  exact (proj1 (proj2 (C9_scripts_differ_in_fetch_levels_and_early_entries
           (Sample.host "SUITELET" (VStr "1000") (Sample.deposits [VStr "150"; VStr "250"]))
           "SUITELET" (VStr "77") (ofZ 1000) (ofZ 400)
           (Sample.event "create" (VStr "77")) []) eq_refl)).
Defined.

(** C9 as stated fails in its last clause: with the order read alike by
    both, and levels and the reading call forgotten, the scripts still
    differ. On an edit and on the creation of an unlinked fulfilment the
    OTP-9678 script adds nothing to the trace, the OTP-9419 script an
    entry. *)
Lemma C9_counterexample :
  orderTotalField LookupFieldsScript
    (Sample.host "SUITELET" (VStr "1000") (Sample.deposits [VStr "400"])) (VStr "77")
  = orderTotalField RecordLoadScript
      (Sample.host "SUITELET" (VStr "1000") (Sample.deposits [VStr "400"])) (VStr "77") /\
  map forgetVariant
    (snd (OTP9678.beforeSubmit
            (Sample.host "SUITELET" (VStr "1000") (Sample.deposits [VStr "400"]))
            (Sample.event "edit" (VStr "77")) [])) = [] /\
  map forgetVariant
    (snd (OTP9419.beforeSubmit
            (Sample.host "SUITELET" (VStr "1000") (Sample.deposits [VStr "400"]))
            (Sample.event "edit" (VStr "77")) []))
    = [LogEntry Audit "Exit" "Not a Create operation."] /\
  map forgetVariant
    (snd (OTP9678.beforeSubmit
            (Sample.host "SUITELET" (VStr "1000") (Sample.deposits [VStr "400"]))
            (Sample.unlinkedEvent "create") [])) = [] /\
  map forgetVariant
    (snd (OTP9419.beforeSubmit
            (Sample.host "SUITELET" (VStr "1000") (Sample.deposits [VStr "400"]))
            (Sample.unlinkedEvent "create") []))
    = [LogEntry Audit "Skip" "No Sales Order linked."] /\
  map forgetVariant
    (snd (OTP9678.beforeSubmit
            (Sample.host "SUITELET" (VStr "1000") (Sample.deposits [VStr "400"]))
            (Sample.event "edit" (VStr "77")) []))
  <> map forgetVariant
       (snd (OTP9419.beforeSubmit
               (Sample.host "SUITELET" (VStr "1000") (Sample.deposits [VStr "400"]))
               (Sample.event "edit" (VStr "77")) [])).
Proof. repeat split; try reflexivity. discriminate. Qed.

(** ** Fetching the totals *)

(** What the scripts compute for the totals. When the lookups succeed,
    [getSalesOrderAndDepositTotals] returns normally with
    [soTotal = parseFloat(total) || 0] and with [depositTotal] the sum that
    JavaScript's [+] computes from [0], left to right in the order of the
    search results, of [parseFloat(total) || 0] over every deposit found;
    a field that parses to NaN (missing or unparseable) counts as [0], and
    no deposit at all gives [0]. *)
Theorem deposit_total_is_the_float_sum (v : Variant) (H : Host) (soId t : JSValue)
    (tr : Trace) :
  orderTotalField v H soId = Normal t ->
  rs_error (search_run H soId) = None ->
  getSalesOrderAndDepositTotalsOf v H soId tr
    = (Normal {| soTotal := orZero (parseFloat H t);
                 depositTotal :=
                   fold_left add (map (contribution H) (linkedDeposits H soId)) zero |},
       (tr ++ [orderCall v soId; SearchCreate soId])%list) /\
  (parseFloat H t = NaN -> orZero (parseFloat H t) = zero) /\
  (forall result, In result (linkedDeposits H soId) ->
     parseFloat H (getValue result "total") = NaN -> contribution H result = zero) /\
  (linkedDeposits H soId = [] ->
     fold_left add (map (contribution H) (linkedDeposits H soId)) zero = zero).
Proof.
  intros Ht Hrs. repeat split.
  - rewrite totals_run, Ht, Hrs. reflexivity.
  - intros ->. reflexivity.
  - intros result _ Hnan. unfold contribution. rewrite Hnan. reflexivity.
  - intros ->. reflexivity.
Qed.

(** An order whose total is missing, with deposits of 150, of text and of
    250: the totals are 0 and 400. *)
Lemma deposit_total_float_sum_example :
  orderTotalField LookupFieldsScript
    (Sample.host "SUITELET" VUndefined (Sample.deposits [VStr "150"; VStr "n/a"; VStr "250"]))
    (VStr "77") = Normal VUndefined /\
  rs_error (search_run
    (Sample.host "SUITELET" VUndefined (Sample.deposits [VStr "150"; VStr "n/a"; VStr "250"]))
    (VStr "77")) = None /\
  OTP9678.getSalesOrderAndDepositTotals
    (Sample.host "SUITELET" VUndefined (Sample.deposits [VStr "150"; VStr "n/a"; VStr "250"]))
    (VStr "77") []
    = (Normal {| soTotal := zero; depositTotal := ofZ 400 |},
       [LookupFields (VStr "77"); SearchCreate (VStr "77")]).
Proof.
  split; [reflexivity|]. split; [reflexivity|].
  exact (proj1 (deposit_total_is_the_float_sum LookupFieldsScript
    (Sample.host "SUITELET" VUndefined (Sample.deposits [VStr "150"; VStr "n/a"; VStr "250"]))
    (VStr "77") VUndefined [] eq_refl eq_refl)).
Defined.

(** The deposit total is not the arithmetic sum of the deposits, also on
    whole numbers. Deposits of 2^53, 1 and 1 add up to 2^53 + 2, a number that
    binary64 has, but the script's total is 2^53, each [+ 1] being rounded
    away; found in the order 1, 1, 2^53 the same deposits give 2^53 + 2. *)
Lemma deposit_total_depends_on_the_order_found :
  let found := [VStr "9007199254740992"; VStr "1"; VStr "1"] in
  let H := Sample.host "SUITELET" (VStr "1000") (Sample.deposits found) in
  let H' := Sample.host "SUITELET" (VStr "1000") (Sample.deposits (rev found)) in
  fst (OTP9678.getSalesOrderAndDepositTotals H (VStr "77") [])
    = Normal {| soTotal := ofZ 1000; depositTotal := ofZ (2 ^ 53) |} /\
  ~ isArithmeticSum (ofZ (2 ^ 53)) (map (contribution H) (linkedDeposits H (VStr "77"))) /\
  isArithmeticSum (ofZ (2 ^ 53 + 2)) (map (contribution H) (linkedDeposits H (VStr "77"))) /\
  fst (OTP9678.getSalesOrderAndDepositTotals H' (VStr "77") [])
    = Normal {| soTotal := ofZ 1000; depositTotal := ofZ (2 ^ 53 + 2) |}.
Proof.
  cbv zeta. split; [vm_compute; reflexivity|]. split; [|split].
  - vm_compute. discriminate.
  - vm_compute. reflexivity.
  - vm_compute. reflexivity.
Qed.

(** The same rounding at the scale of cents: deposits of 0.70 and 0.10
    come to 0.7999999999999999, which is below an order total of 0.80, and
    the creation is denied outside the user-event context. *)
Example cents_fall_short :
  let H := Sample.host "SUITELET" (VNum (Sample.decimal 80 2))
             (Sample.deposits [VNum (Sample.decimal 70 2); VNum (Sample.decimal 10 2)]) in
  Sample.decimal 70 2 = S754_finite false 6305039478318694 (-53) /\
  Sample.decimal 10 2 = S754_finite false 7205759403792794 (-56) /\
  Sample.decimal 80 2 = S754_finite false 7205759403792794 (-53) /\
  fst (OTP9678.getSalesOrderAndDepositTotals H (VStr "77") [])
    = Normal {| soTotal := S754_finite false 7205759403792794 (-53);
                depositTotal := S754_finite false 7205759403792793 (-53) |} /\
  exists message,
    fst (OTP9678.beforeSubmit H (Sample.event "create" (VStr "77")) []) = Throw (VStr message).
Proof.
  cbv zeta. repeat split; try (vm_compute; reflexivity).
  eexists. vm_compute. reflexivity.
Qed.

(** C6. The deposit total is meant to be the sum of the deposits, and a
    creation is to be restricted only when that sum is below the order
    total; the scripts add the deposits in binary64 and miss it. An order
    of 30.30 with deposits of 10.10 and 20.20 is covered to the cent
    (1010 + 2020 = 3030), but the deposit total the scripts compute is
    30.299999999999997, strictly below 30.30 and below the order total as
    they read it, and outside the user-event context both deny the
    creation. *)
Theorem C6_covered_order_is_denied :
  let H := Sample.host "SUITELET" (VNum (Sample.decimal 3030 2))
             (Sample.deposits [VNum (Sample.decimal 1010 2); VNum (Sample.decimal 2020 2)]) in
  let soTotal := S754_finite false 8528691794332877 (-48) in
  let depositTotal := S754_finite false 8528691794332876 (-48) in
  (inject_Z 1010 / 100 + inject_Z 2020 / 100 == inject_Z 3030 / 100)%Q /\
  fst (OTP9678.getSalesOrderAndDepositTotals H (VStr "77") [])
    = Normal {| soTotal := soTotal; depositTotal := depositTotal |} /\
  fst (OTP9419.getSalesOrderAndDepositTotals H (VStr "77") [])
    = Normal {| soTotal := soTotal; depositTotal := depositTotal |} /\
  (exists q, exactQ depositTotal = Some q /\ (q < inject_Z 3030 / 100)%Q) /\
  ltb depositTotal soTotal = true /\
  fst (OTP9678.beforeSubmit H (Sample.event "create" (VStr "77")) [])
    = Throw (VStr (denialMessage H (VStr "77") soTotal depositTotal)) /\
  fst (OTP9419.beforeSubmit H (Sample.event "create" (VStr "77")) [])
    = Throw (VStr (denialMessage H (VStr "77") soTotal depositTotal)).
Proof.
  cbv zeta. split; [reflexivity|].
  split; [vm_compute; reflexivity|]. split; [vm_compute; reflexivity|].
  split; [eexists; split; [reflexivity | vm_compute; reflexivity]|].
  split; [reflexivity|]. split; vm_compute; reflexivity.
Qed.

Lemma floatSum_nonNegative (xs : list float) (acc : float) :
  nonNegative acc = true ->
  Forall (fun x => nonNegative x = true) xs ->
  nonNegative (fold_left add xs acc) = true.
Proof.
  intros Hacc Hxs. revert acc Hacc.
  induction Hxs as [|x xs Hx _ IH]; intros acc Hacc; simpl.
  - assumption.
  - apply IH. apply add_nonNegative; assumption.
Qed.

(** C7, as the scripts have it. The scripts pass a negative total through.
    When the lookups succeed and neither the order's total field nor the
    total field of any deposit found parses to a number below zero, the
    pair returned has [soTotal >= 0] and [depositTotal >= 0]. *)
Theorem C7_totals_of_non_negative_fields (v : Variant) (H : Host) (soId t : JSValue)
    (tr : Trace) :
  orderTotalField v H soId = Normal t ->
  rs_error (search_run H soId) = None ->
  ltb (parseFloat H t) zero = false ->
  (forall result, In result (linkedDeposits H soId) ->
     ltb (parseFloat H (getValue result "total")) zero = false) ->
  exists totals,
    fst (getSalesOrderAndDepositTotalsOf v H soId tr) = Normal totals /\
    nonNegative (soTotal totals) = true /\
    nonNegative (depositTotal totals) = true.
Proof.
  intros Ht Hrs Hso Hdep.
  rewrite totals_run, Ht, Hrs. eexists. split; [reflexivity|]. simpl. split.
  - apply orZero_nonNegative, Hso.
  - apply floatSum_nonNegative; [reflexivity|].
    apply Forall_forall. intros x Hx. apply in_map_iff in Hx.
    destruct Hx as [result [<- Hin]]. apply orZero_nonNegative, Hdep, Hin.
Qed.

(** An order of 1000 with deposits of 150, of text and of 250. *)
Lemma C7_witness :
  exists totals,
    fst (OTP9419.getSalesOrderAndDepositTotals
           (Sample.host "SUITELET" (VStr "1000")
              (Sample.deposits [VStr "150"; VStr "n/a"; VStr "250"]))
           (VStr "77") []) = Normal totals /\
    nonNegative (soTotal totals) = true /\
    nonNegative (depositTotal totals) = true.
Proof.
  apply (C7_totals_of_non_negative_fields RecordLoadScript
           (Sample.host "SUITELET" (VStr "1000")
              (Sample.deposits [VStr "150"; VStr "n/a"; VStr "250"]))
           (VStr "77") (VStr "1000") []); try reflexivity.
  intros result Hin. simpl in Hin.
  destruct Hin as [<-|[<-|[<-|[]]]]; reflexivity.
Defined.

(** C7 as stated fails: an order whose total field reads -5 and a deposit
    whose total field reads -7 give the pair (-5, -7). *)
Lemma C7_counterexample :
  OTP9678.getSalesOrderAndDepositTotals
    (Sample.host "SUITELET" (VStr "-5") (Sample.deposits [VStr "-7"])) (VStr "77") []
    = (Normal {| soTotal := ofZ (-5); depositTotal := ofZ (-7) |},
       [LookupFields (VStr "77"); SearchCreate (VStr "77")]) /\
  nonNegative (ofZ (-5)) = false /\
  nonNegative (ofZ (-7)) = false /\
  ltb (ofZ (-5)) zero = true /\
  ltb (ofZ (-7)) zero = true.
Proof. repeat split; vm_compute; reflexivity. Qed.

(** ** Failing lookups *)

(** C8. When the order lookup or the deposit search fails with [e] during
    a CREATE event that is linked to an order,
    [getSalesOrderAndDepositTotals] throws [e], [handleError] throws what
    it is given, and [beforeSubmit] throws the same [e] to the host; only
    the lookup calls were made, nothing was logged and nothing decided. *)
Theorem C8_lookup_failure_propagates (v : Variant) (H : Host) (sc : ScriptContext)
    (e : JSValue) (tr : Trace) :
  type sc = UserEventType_CREATE sc ->
  toBoolean (getValue (newRecord sc) "createdfrom") = true ->
  fetchError v H (getValue (newRecord sc) "createdfrom") = Some e ->
  fst (getSalesOrderAndDepositTotalsOf v H (getValue (newRecord sc) "createdfrom") tr) = Throw e /\
  (forall e' tr', handleErrorOf v e' tr' = (Throw e', tr')) /\
  exists calls,
    beforeSubmitOf v H sc tr = (Throw e, (tr ++ calls)%list) /\
    calls = match orderTotalField v H (getValue (newRecord sc) "createdfrom") with
            | Throw _ => [orderCall v (getValue (newRecord sc) "createdfrom")]
            | Normal _ => [orderCall v (getValue (newRecord sc) "createdfrom");
                           SearchCreate (getValue (newRecord sc) "createdfrom")]
            end /\
    existsb isLog calls = false.
Proof.
  intros Hty Hso Hfail. unfold fetchError in Hfail.
  pose proof (totals_run v H (getValue (newRecord sc) "createdfrom") tr) as E.
  pose proof (beforeSubmit_run v H sc tr) as B.
  rewrite Hty, String.eqb_refl, Hso in B. simpl in B.
  destruct (orderTotalField v H (getValue (newRecord sc) "createdfrom")) as [t|e0].
  - rewrite Hfail in E. rewrite E in B. rewrite E.
    split; [reflexivity|]. split; [destruct v; reflexivity|].
    eexists. split; [exact B|]. split; [reflexivity | destruct v; reflexivity].
  - injection Hfail as ->. rewrite E in B. rewrite E.
    split; [reflexivity|]. split; [destruct v; reflexivity|].
    eexists. split; [exact B|]. split; [reflexivity | destruct v; reflexivity].
Qed.

(** The order lookup of the host fails, and then a deposit search that
    fails after its first result. *)
Lemma C8_witness :
  OTP9678.beforeSubmit (Sample.hostWithoutOrders "SUITELET" Sample.platformError)
    (Sample.event "create" (VStr "77")) []
    = (Throw Sample.platformError, [LookupFields (VStr "77")]) /\
  OTP9419.beforeSubmit
    (Sample.host "SUITELET" (VStr "1000")
       (rs_next (Sample.deposit (VStr "400")) (rs_fail Sample.platformError)))
    (Sample.event "create" (VStr "77")) []
    = (Throw Sample.platformError, [RecordLoad (VStr "77"); SearchCreate (VStr "77")]).
Proof.
  split.
  - destruct (proj2 (proj2 (C8_lookup_failure_propagates LookupFieldsScript
             (Sample.hostWithoutOrders "SUITELET" Sample.platformError)
             (Sample.event "create" (VStr "77")) Sample.platformError []
             eq_refl eq_refl eq_refl))) as [calls [Hrun [Hcalls _]]].
    cbv [beforeSubmitOf] in Hrun. rewrite Hrun, Hcalls. reflexivity.
  - destruct (proj2 (proj2 (C8_lookup_failure_propagates RecordLoadScript
             (Sample.host "SUITELET" (VStr "1000")
                (rs_next (Sample.deposit (VStr "400")) (rs_fail Sample.platformError)))
             (Sample.event "create" (VStr "77")) Sample.platformError []
             eq_refl eq_refl eq_refl))) as [calls [Hrun [Hcalls _]]].
    cbv [beforeSubmitOf] in Hrun. rewrite Hrun, Hcalls. reflexivity.
Defined.

(** ** A missing order total *)

(** C10. When the order's total field is missing or unparseable (it parses
    to NaN), [getSalesOrderAndDepositTotals] gives [soTotal = 0]; if the
    deposit total it computes is then non-negative,
    [applyRestrictionLogic] allows in every execution context and
    [beforeSubmit] returns normally: nothing fails and nothing is denied. *)
Theorem C10_missing_order_total_allows (v : Variant) (H : Host) (sc : ScriptContext)
    (t : JSValue) (tr : Trace) :
  type sc = UserEventType_CREATE sc ->
  toBoolean (getValue (newRecord sc) "createdfrom") = true ->
  orderTotalField v H (getValue (newRecord sc) "createdfrom") = Normal t ->
  parseFloat H t = NaN ->
  rs_error (search_run H (getValue (newRecord sc) "createdfrom")) = None ->
  nonNegative (floatSum (map (contribution H)
                 (linkedDeposits H (getValue (newRecord sc) "createdfrom")))) = true ->
  exists d,
    fst (getSalesOrderAndDepositTotalsOf v H (getValue (newRecord sc) "createdfrom") tr)
      = Normal {| soTotal := zero; depositTotal := d |} /\
    (forall execContext tr',
       decision (fst (applyRestrictionLogicOf v H execContext
                        (getValue (newRecord sc) "createdfrom") zero d tr')) = Allow) /\
    fst (beforeSubmitOf v H sc tr) = Normal tt.
Proof.
  intros Hty Hso Ht Hnan Hrs Hd.
  pose proof (totals_run v H (getValue (newRecord sc) "createdfrom") tr) as E.
  rewrite Ht, Hrs, Hnan in E. change (orZero NaN) with zero in E.
  eexists. split; [rewrite E; reflexivity|].
  apply geb_not_ltb in Hd. split.
  - intros execContext tr'. now apply allow_when_not_less.
  - rewrite beforeSubmit_run, Hty, String.eqb_refl, Hso. simpl. rewrite E.
    apply decision_allow. now apply allow_when_not_less.
Qed.

(** The order's total field is missing and the deposits come to 400: the
    creation goes through although the execution context is not the
    user-event one. *)
Lemma C10_witness :
  exists d,
    fst (OTP9678.getSalesOrderAndDepositTotals
           (Sample.host "SUITELET" VUndefined (Sample.deposits [VStr "150"; VStr "250"]))
           (VStr "77") [])
      = Normal {| soTotal := zero; depositTotal := d |} /\
    (forall execContext tr',
       decision (fst (OTP9678.applyRestrictionLogic
                        (Sample.host "SUITELET" VUndefined (Sample.deposits [VStr "150"; VStr "250"]))
                        execContext (VStr "77") zero d tr')) = Allow) /\
    fst (OTP9678.beforeSubmit
           (Sample.host "SUITELET" VUndefined (Sample.deposits [VStr "150"; VStr "250"]))
           (Sample.event "create" (VStr "77")) []) = Normal tt.
Proof.
  apply (C10_missing_order_total_allows LookupFieldsScript
           (Sample.host "SUITELET" VUndefined (Sample.deposits [VStr "150"; VStr "250"]))
           (Sample.event "create" (VStr "77")) VUndefined []); reflexivity.
Defined.

(** * Further properties of the scripts *)

(** ** When a creation is denied *)

(** X1. [applyRestrictionLogic] throws exactly when the execution context
    is not the user-event one and [depositTotal < soTotal]; in every other
    case it returns normally. *)
Theorem denial_exactly_on_shortfall (v : Variant) (H : Host) (execContext : string)
    (soId : JSValue) (soTotal depositTotal : float) (tr : Trace) :
  (exists e, fst (applyRestrictionLogicOf v H execContext soId soTotal depositTotal tr) = Throw e)
  <-> (execContext <> USEREVENT H /\ ltb depositTotal soTotal = true).
Proof.
  rewrite restriction_run.
  destruct (execContext =? USEREVENT H)%string eqn:Ectx;
    destruct (ltb depositTotal soTotal) eqn:Elt; simpl; split.
  - intros [e He]. discriminate.
  - intros [Hne _]. apply String.eqb_eq in Ectx. contradiction.
  - intros [e He]. discriminate.
  - intros [_ Hlt]. discriminate.
  - intros _. split; [now apply String.eqb_neq | reflexivity].
  - intros _. eexists. reflexivity.
  - intros [e He]. discriminate.
  - intros [_ Hlt]. discriminate.
Qed.

(** X2. On a CREATE event that is linked to an order whose lookups
    succeed, [beforeSubmit] completes by the totals it fetched alone: it
    returns normally in the user-event context or when the deposit total
    is not below the order total, and otherwise throws the denial message
    built from the order reference and the two totals. *)
Theorem linked_creation_is_decided_by_the_totals (v : Variant) (H : Host)
    (sc : ScriptContext) (t : JSValue) (tr : Trace) :
  type sc = UserEventType_CREATE sc ->
  toBoolean (getValue (newRecord sc) "createdfrom") = true ->
  orderTotalField v H (getValue (newRecord sc) "createdfrom") = Normal t ->
  rs_error (search_run H (getValue (newRecord sc) "createdfrom")) = None ->
  fst (beforeSubmitOf v H sc tr) =
  if (executionContext H =? USEREVENT H)%string
     || negb (ltb (floatSum (map (contribution H)
                     (linkedDeposits H (getValue (newRecord sc) "createdfrom"))))
                  (orZero (parseFloat H t)))
  then Normal tt
  else Throw (VStr (denialMessage H (getValue (newRecord sc) "createdfrom")
                      (orZero (parseFloat H t))
                      (floatSum (map (contribution H)
                         (linkedDeposits H (getValue (newRecord sc) "createdfrom")))))).
Proof.
  intros Hty Hso Ht Hrs.
  rewrite beforeSubmit_run, Hty, String.eqb_refl, Hso. cbv zeta. simpl negb. cbv iota.
  rewrite totals_run, Ht, Hrs. rewrite restriction_run. simpl soTotal. simpl depositTotal.
  destruct (executionContext H =? USEREVENT H)%string;
    destruct (ltb _ _); reflexivity.
Qed.

(** Scenario B end to end: order 77 of 1000 with deposits of 150 and 250
    in a Suitelet. *)
Lemma linked_creation_witness :
  fst (OTP9678.beforeSubmit
         (Sample.host "SUITELET" (VStr "1000") (Sample.deposits [VStr "150"; VStr "250"]))
         (Sample.event "create" (VStr "77")) [])
  = Throw (VStr "Cannot fulfill this Sales Order (77). Total deposit (400) is less than the order total (1000).").
Proof.
  exact (linked_creation_is_decided_by_the_totals LookupFieldsScript
           (Sample.host "SUITELET" (VStr "1000") (Sample.deposits [VStr "150"; VStr "250"]))
           (Sample.event "create" (VStr "77")) (VStr "1000") []
           eq_refl eq_refl eq_refl eq_refl).
Defined.

(** X3. Whatever [beforeSubmit] throws, the event was a CREATE linked to
    an order, and the thrown value is either the error of a failed lookup,
    passed on as it is, or, the lookups having succeeded outside the
    user-event context with the deposit total they gave below the order
    total they gave, the denial message built from those totals. *)
Theorem beforeSubmit_throws_only_errors_and_denials (v : Variant) (H : Host)
    (sc : ScriptContext) (e : JSValue) (tr : Trace) :
  fst (beforeSubmitOf v H sc tr) = Throw e ->
  type sc = UserEventType_CREATE sc /\
  toBoolean (getValue (newRecord sc) "createdfrom") = true /\
  (fetchError v H (getValue (newRecord sc) "createdfrom") = Some e
   \/ (exists t,
         orderTotalField v H (getValue (newRecord sc) "createdfrom") = Normal t /\
         rs_error (search_run H (getValue (newRecord sc) "createdfrom")) = None /\
         executionContext H <> USEREVENT H /\
         ltb (floatSum (map (contribution H)
                (linkedDeposits H (getValue (newRecord sc) "createdfrom"))))
             (orZero (parseFloat H t)) = true /\
         e = VStr (denialMessage H (getValue (newRecord sc) "createdfrom")
                     (orZero (parseFloat H t))
                     (floatSum (map (contribution H)
                        (linkedDeposits H (getValue (newRecord sc) "createdfrom"))))))).
Proof.
  rewrite beforeSubmit_run. unfold fetchError.
  destruct (type sc =? UserEventType_CREATE sc)%string eqn:Ety; simpl negb; cbv iota;
    [|discriminate].
  destruct (toBoolean (getValue (newRecord sc) "createdfrom")) eqn:Eso; simpl negb; cbv iota;
    [|discriminate].
  cbv zeta. rewrite totals_run. intros Hthrow.
  split; [now apply String.eqb_eq|]. split; [reflexivity|].
  destruct (orderTotalField v H _) as [t|e0].
  - destruct (rs_error (search_run H _)) as [e1|].
    + left. simpl in Hthrow. congruence.
    + right. exists t. split; [reflexivity|]. split; [reflexivity|].
      rewrite restriction_run in Hthrow. simpl soTotal in Hthrow. simpl depositTotal in Hthrow.
      destruct (executionContext H =? USEREVENT H)%string eqn:Ectx;
        destruct (ltb _ (orZero (parseFloat H t))) eqn:Elt; try discriminate Hthrow.
      split; [now apply String.eqb_neq|]. split; [reflexivity|].
      simpl in Hthrow. injection Hthrow as <-. reflexivity.
  - left. simpl in Hthrow. congruence.
Qed.

(** The denial of scenario B is a denial message on the fetched totals,
    1000 and 150 + 250, not a lookup error. *)
Lemma beforeSubmit_throws_witness :
  type (Sample.event "create" (VStr "77")) = UserEventType_CREATE (Sample.event "create" (VStr "77")) /\
  toBoolean (getValue (newRecord (Sample.event "create" (VStr "77"))) "createdfrom") = true /\
  (fetchError RecordLoadScript
     (Sample.host "SUITELET" (VStr "1000") (Sample.deposits [VStr "150"; VStr "250"]))
     (getValue (newRecord (Sample.event "create" (VStr "77"))) "createdfrom")
   = Some (VStr "Cannot fulfill this Sales Order (77). Total deposit (400) is less than the order total (1000).")
   \/ (exists t,
         orderTotalField RecordLoadScript
           (Sample.host "SUITELET" (VStr "1000") (Sample.deposits [VStr "150"; VStr "250"]))
           (getValue (newRecord (Sample.event "create" (VStr "77"))) "createdfrom") = Normal t /\
         rs_error (search_run
           (Sample.host "SUITELET" (VStr "1000") (Sample.deposits [VStr "150"; VStr "250"]))
           (getValue (newRecord (Sample.event "create" (VStr "77"))) "createdfrom")) = None /\
         executionContext (Sample.host "SUITELET" (VStr "1000") (Sample.deposits [VStr "150"; VStr "250"]))
           <> USEREVENT (Sample.host "SUITELET" (VStr "1000") (Sample.deposits [VStr "150"; VStr "250"])) /\
         ltb (floatSum (map (contribution
                  (Sample.host "SUITELET" (VStr "1000") (Sample.deposits [VStr "150"; VStr "250"])))
                (linkedDeposits
                   (Sample.host "SUITELET" (VStr "1000") (Sample.deposits [VStr "150"; VStr "250"]))
                   (getValue (newRecord (Sample.event "create" (VStr "77"))) "createdfrom"))))
             (orZero (parseFloat
                (Sample.host "SUITELET" (VStr "1000") (Sample.deposits [VStr "150"; VStr "250"])) t))
           = true /\
         VStr "Cannot fulfill this Sales Order (77). Total deposit (400) is less than the order total (1000)."
         = VStr (denialMessage
                   (Sample.host "SUITELET" (VStr "1000") (Sample.deposits [VStr "150"; VStr "250"]))
                   (getValue (newRecord (Sample.event "create" (VStr "77"))) "createdfrom")
                   (orZero (parseFloat
                      (Sample.host "SUITELET" (VStr "1000") (Sample.deposits [VStr "150"; VStr "250"])) t))
                   (floatSum (map (contribution
                      (Sample.host "SUITELET" (VStr "1000") (Sample.deposits [VStr "150"; VStr "250"])))
                      (linkedDeposits
                         (Sample.host "SUITELET" (VStr "1000") (Sample.deposits [VStr "150"; VStr "250"]))
                         (getValue (newRecord (Sample.event "create" (VStr "77"))) "createdfrom"))))))).
Proof.
  apply (beforeSubmit_throws_only_errors_and_denials RecordLoadScript
           (Sample.host "SUITELET" (VStr "1000") (Sample.deposits [VStr "150"; VStr "250"]))
           (Sample.event "create" (VStr "77")) _ []).
  reflexivity.
Defined.

(** ** What a run does to the host *)

(** X4. The calls [beforeSubmit] makes into the host, on every event: none
    unless the event is a CREATE with a truthy "created from"; then the
    order lookup once and, only if it succeeded, the deposit search once
    after it. Everything else it adds to the trace is a log entry, and what
    was in the trace stays. *)
Theorem host_calls_of_beforeSubmit (v : Variant) (H : Host) (sc : ScriptContext)
    (tr : Trace) :
  exists added,
    snd (beforeSubmitOf v H sc tr) = (tr ++ added)%list /\
    filter isLookup added =
      if (type sc =? UserEventType_CREATE sc)%string
         && toBoolean (getValue (newRecord sc) "createdfrom")
      then match orderTotalField v H (getValue (newRecord sc) "createdfrom") with
           | Throw _ => [orderCall v (getValue (newRecord sc) "createdfrom")]
           | Normal _ => [orderCall v (getValue (newRecord sc) "createdfrom");
                          SearchCreate (getValue (newRecord sc) "createdfrom")]
           end
      else [].
Proof.
  rewrite beforeSubmit_run.
  destruct (type sc =? UserEventType_CREATE sc)%string; simpl negb; cbv iota;
    [|eexists; split; [reflexivity | destruct v; reflexivity]].
  destruct (toBoolean (getValue (newRecord sc) "createdfrom")); simpl negb; cbv iota;
    [|eexists; split; [reflexivity | destruct v; reflexivity]].
  cbv zeta. rewrite totals_run.
  destruct (orderTotalField v H _) as [t|e0];
    [|eexists; split; [reflexivity | destruct v; reflexivity]].
  destruct (rs_error (search_run H _)) as [e1|];
    [eexists; split; [reflexivity | destruct v; reflexivity]|].
  rewrite restriction_run.
  destruct (executionContext H =? USEREVENT H)%string; destruct (ltb _ _); simpl snd;
    rewrite <- ?app_assoc; eexists; (split; [reflexivity | destruct v; reflexivity]).
Qed.

Lemma prefix_self (s : string) : String.prefix s s = true.
Proof.
  induction s as [|c s IH]; simpl; [reflexivity|].
  destruct (ascii_dec c c); [assumption | congruence].
Qed.

Lemma includes_self (s : string) : includes s s = true.
Proof. rewrite includes_unfold, prefix_self. reflexivity. Qed.

Lemma validationDetails_includes (H : Host) (soId : JSValue) (soTotal depositTotal : float) :
  includes (validationDetails H soId soTotal depositTotal) (ToString H soId) = true /\
  includes (validationDetails H soId soTotal depositTotal) (ToString H (VNum soTotal)) = true /\
  includes (validationDetails H soId soTotal depositTotal) (ToString H (VNum depositTotal)) = true.
Proof.
  unfold validationDetails. repeat split.
  - apply includes_append.
  - apply includes_after, includes_after, includes_append.
  - do 5 apply includes_after. apply includes_self.
Qed.

(** X6. On a CREATE event that is linked to an order whose lookups
    succeed, [beforeSubmit] writes the "Deposit Validation" entry, whose
    details contain the order reference and both totals, right after the
    two lookups and before it decides: a denial leaves nothing after it,
    an allowance exactly one more log entry. *)
Theorem totals_are_logged_before_the_decision (v : Variant) (H : Host)
    (sc : ScriptContext) (t : JSValue) (tr : Trace) :
  type sc = UserEventType_CREATE sc ->
  toBoolean (getValue (newRecord sc) "createdfrom") = true ->
  orderTotalField v H (getValue (newRecord sc) "createdfrom") = Normal t ->
  rs_error (search_run H (getValue (newRecord sc) "createdfrom")) = None ->
  exists details rest,
    snd (beforeSubmitOf v H sc tr)
      = (tr ++ [orderCall v (getValue (newRecord sc) "createdfrom");
                SearchCreate (getValue (newRecord sc) "createdfrom");
                LogEntry (validationLevel v) "Deposit Validation" details] ++ rest)%list /\
    details = validationDetails H (getValue (newRecord sc) "createdfrom")
                (orZero (parseFloat H t))
                (floatSum (map (contribution H)
                   (linkedDeposits H (getValue (newRecord sc) "createdfrom")))) /\
    includes details (ToString H (getValue (newRecord sc) "createdfrom")) = true /\
    includes details (ToString H (VNum (orZero (parseFloat H t)))) = true /\
    includes details (ToString H (VNum (floatSum (map (contribution H)
                        (linkedDeposits H (getValue (newRecord sc) "createdfrom")))))) = true /\
    forallb isLog rest = true /\
    List.length rest = match fst (beforeSubmitOf v H sc tr) with
                  | Normal _ => 1%nat
                  | Throw _ => 0%nat
                  end.
Proof.
  intros Hty Hso Ht Hrs.
  destruct (validationDetails_includes H (getValue (newRecord sc) "createdfrom")
              (orZero (parseFloat H t))
              (floatSum (map (contribution H)
                 (linkedDeposits H (getValue (newRecord sc) "createdfrom")))))
    as [I1 [I2 I3]].
  rewrite beforeSubmit_run, Hty, String.eqb_refl, Hso. cbv zeta. simpl negb. cbv iota.
  rewrite totals_run, Ht, Hrs. rewrite restriction_run. simpl soTotal. simpl depositTotal.
  eexists.
  destruct v; destruct (executionContext H =? USEREVENT H)%string; destruct (ltb _ _);
    simpl fst; simpl snd; rewrite <- ?app_assoc;
    first [ eexists [_]; split; [reflexivity|] | exists []; split; [reflexivity|] ];
    (split; [reflexivity|]);
    repeat split; assumption.
Qed.

(** A linked creation in the user-event context: the totals are logged,
    then the bypass. *)
Lemma totals_are_logged_witness :
  exists details rest,
    snd (OTP9678.beforeSubmit
           (Sample.host "USEREVENT" (VStr "1000") (Sample.deposits [VStr "150"; VStr "250"]))
           (Sample.event "create" (VStr "77")) [])
      = ([LookupFields (VStr "77"); SearchCreate (VStr "77");
          LogEntry Audit "Deposit Validation" details] ++ rest)%list /\
    details = "Sales Order ID: 77 | Sales Order Total: 1000 | Deposit Total: 400" /\
    includes details "77" = true /\
    includes details "1000" = true /\
    includes details "400" = true /\
    forallb isLog rest = true /\
    List.length rest = 1%nat.
Proof.
  exact (totals_are_logged_before_the_decision LookupFieldsScript
           (Sample.host "USEREVENT" (VStr "1000") (Sample.deposits [VStr "150"; VStr "250"]))
           (Sample.event "create" (VStr "77")) (VStr "1000") []
           eq_refl eq_refl eq_refl eq_refl).
Defined.

(** ** The order of numbers *)

Ltac compare_cases :=
  repeat match goal with
         | H : context [Z.compare ?a ?b] |- _ => destruct (Z.compare_spec a b)
         | |- context [Z.compare ?a ?b] => destruct (Z.compare_spec a b)
         | H : context [Pos.compare ?a ?b] |- _ => destruct (Pos.compare_spec a b)
         | |- context [Pos.compare ?a ?b] => destruct (Pos.compare_spec a b)
         end;
  simpl in *; subst; try discriminate; try reflexivity; try lia.

Lemma SFcompare_trans (x y z : float) (c : comparison) :
  SFcompare x y = Some c -> c <> Gt -> SFcompare y z = Some Lt ->
  SFcompare x z = Some Lt.
Proof.
  destruct x as [sx|sx| |sx mx ex], y as [sy|sy| |sy my ey], z as [sz|sz| |sz mz ez];
    simpl; intros Hxy Hc Hyz; try discriminate;
    try (destruct sx, sy, sz; simpl in *; try discriminate; try reflexivity; congruence).
  change (Pos.compare_cont Eq mx my) with (Pos.compare mx my) in Hxy.
  change (Pos.compare_cont Eq my mz) with (Pos.compare my mz) in Hyz.
  change (Pos.compare_cont Eq mx mz) with (Pos.compare mx mz).
  injection Hxy as Hxy. injection Hyz as Hyz. f_equal. subst c.
  destruct sx, sy, sz; simpl in *; try discriminate; try reflexivity;
    try congruence; compare_cases; congruence.
Qed.

Lemma SFcompare_trans_r (x y z : float) (c : comparison) :
  SFcompare x y = Some Lt -> SFcompare y z = Some c -> c <> Gt ->
  SFcompare x z = Some Lt.
Proof.
  destruct x as [sx|sx| |sx mx ex], y as [sy|sy| |sy my ey], z as [sz|sz| |sz mz ez];
    simpl; intros Hxy Hyz Hc; try discriminate;
    try (destruct sx, sy, sz; simpl in *; try discriminate; try reflexivity; congruence).
  change (Pos.compare_cont Eq mx my) with (Pos.compare mx my) in Hxy.
  change (Pos.compare_cont Eq my mz) with (Pos.compare my mz) in Hyz.
  change (Pos.compare_cont Eq mx mz) with (Pos.compare mx mz).
  injection Hxy as Hxy. injection Hyz as Hyz. f_equal. subst c.
  destruct sx, sy, sz; simpl in *; try discriminate; try reflexivity;
    try congruence; compare_cases; congruence.
Qed.

Lemma ltb_monotone (d d' s s' : float) :
  geb d' d = true -> geb s s' = true -> ltb d' s' = true -> ltb d s = true.
Proof.
  unfold geb, ltb, SFleb, SFltb. intros Hd Hs Hlt.
  destruct (SFcompare d' s') as [[| |]|] eqn:E1; try discriminate.
  destruct (SFcompare s' s) as [c|] eqn:E2; [|discriminate].
  assert (E3 : SFcompare d' s = Some Lt).
  { apply (SFcompare_trans_r d' s' s c); auto. intros ->. discriminate. }
  destruct (SFcompare d d') as [c'|] eqn:E4; [|discriminate].
  rewrite (SFcompare_trans d d' s c'); auto. intros ->. discriminate.
Qed.

(** X7. More deposit or a smaller order never turns an allowance into a
    denial: if [applyRestrictionLogic] allows on the totals
    [(soTotal, depositTotal)], it allows in the same execution context on
    every [(soTotal', depositTotal')] with [depositTotal' >= depositTotal]
    and [soTotal >= soTotal']. *)
Theorem allowance_is_monotone (v : Variant) (H : Host) (execContext : string)
    (soId : JSValue) (soTotal depositTotal soTotal' depositTotal' : float) (tr tr' : Trace) :
  geb depositTotal' depositTotal = true ->
  geb soTotal soTotal' = true ->
  decision (fst (applyRestrictionLogicOf v H execContext soId soTotal depositTotal tr)) = Allow ->
  decision (fst (applyRestrictionLogicOf v H execContext soId soTotal' depositTotal' tr')) = Allow.
Proof.
  intros Hd Hs. rewrite !restriction_run.
  destruct (execContext =? USEREVENT H)%string.
  - intros _. destruct (ltb depositTotal' soTotal'); reflexivity.
  - destruct (ltb depositTotal' soTotal') eqn:E; [|reflexivity].
    rewrite (ltb_monotone _ _ _ _ Hd Hs E). discriminate.
Qed.

(** An order of 1000 is allowed on deposits of 1000, hence an order of 900
    on deposits of 1200. *)
Lemma allowance_is_monotone_witness :
  decision (fst (OTP9678.applyRestrictionLogic (Sample.host "SUITELET" VNull rs_done)
                   "SUITELET" (VStr "77") (ofZ 900) (ofZ 1200) [])) = Allow.
Proof.
  apply (allowance_is_monotone LookupFieldsScript (Sample.host "SUITELET" VNull rs_done)
           "SUITELET" (VStr "77") (ofZ 1000) (ofZ 1000) (ofZ 900) (ofZ 1200) [] []);
    reflexivity.
Defined.

(** ** The totals as numbers *)

Lemma binary_round_aux_not_nan (s : bool) (m e : Z) (l : location) :
  0 <= m -> isNaN (binary_round_aux prec emax s m e l) = false.
Proof.
  intros Hm. unfold binary_round_aux.
  pose proof (shr_fexp_nonneg m e l Hm) as H1.
  destruct (shr_fexp prec emax m e l) as [mrs' e']. simpl in H1.
  pose proof (shr_fexp_nonneg _ e' loc_Exact
                (round_nearest_even_nonneg _ (loc_of_shr_record mrs') H1)) as H2.
  destruct (shr_fexp prec emax _ e' loc_Exact) as [mrs'' e'']. simpl in H2.
  destruct (shr_m mrs'') as [|p|p].
  - reflexivity.
  - destruct (e'' <=? emax - prec); reflexivity.
  - lia.
Qed.

Lemma binary_round_aux_unsigned (m e : Z) (l : location) :
  0 <= m -> unsigned (binary_round_aux prec emax false m e l) = true.
Proof.
  intros Hm. unfold binary_round_aux.
  pose proof (shr_fexp_nonneg m e l Hm) as H1.
  destruct (shr_fexp prec emax m e l) as [mrs' e']. simpl in H1.
  pose proof (shr_fexp_nonneg _ e' loc_Exact
                (round_nearest_even_nonneg _ (loc_of_shr_record mrs') H1)) as H2.
  destruct (shr_fexp prec emax _ e' loc_Exact) as [mrs'' e'']. simpl in H2.
  destruct (shr_m mrs'') as [|p|p].
  - reflexivity.
  - destruct (e'' <=? emax - prec); reflexivity.
  - lia.
Qed.

Lemma binary_normalize_not_nan (m e : Z) :
  isNaN (binary_normalize prec emax m e false) = false.
Proof.
  destruct m as [|p|p]; simpl; [reflexivity| |];
    unfold binary_round; destruct (shl_align _ _ _) as [mz ez];
    apply binary_round_aux_not_nan; lia.
Qed.

Lemma add_not_nan (x y : float) :
  isNaN x = false -> isNaN y = false -> isInfinite y = false ->
  isNaN (add x y) = false.
Proof.
  destruct x as [sx|sx| |sx mx ex], y as [sy|sy| |sy my ey]; simpl;
    try discriminate; intros _ _ _; try reflexivity.
  - destruct sx, sy; reflexivity.
  - apply binary_normalize_not_nan.
Qed.

Lemma add_unsigned (x y : float) :
  unsigned x = true -> unsigned y = true -> unsigned (add x y) = true.
Proof.
  destruct x as [[|]|[|]| |[|] mx ex], y as [[|]|[|]| |[|] my ey]; simpl;
    try discriminate; intros _ _; try reflexivity.
  unfold binary_round. destruct (shl_align _ _ _) as [mz ez].
  apply binary_round_aux_unsigned. lia.
Qed.

Lemma add_zero_unsigned (x : float) : unsigned x = true -> add x zero = x.
Proof. destruct x as [[|]|[|]| |[|] mx ex]; simpl; try discriminate; reflexivity. Qed.

Lemma contribution_not_nan (H : Host) (result : NSRecord) :
  isNaN (contribution H result) = false.
Proof. unfold contribution. destruct (parseFloat H _); reflexivity. Qed.

Lemma floatSum_not_nan (xs : list float) (acc : float) :
  isNaN acc = false ->
  Forall (fun x => isNaN x = false /\ isInfinite x = false) xs ->
  isNaN (fold_left add xs acc) = false.
Proof.
  intros Hacc Hxs. revert acc Hacc.
  induction Hxs as [|x xs [Hx1 Hx2] _ IH]; intros acc Hacc; simpl.
  - assumption.
  - apply IH. apply add_not_nan; assumption.
Qed.

(** X8. When the lookups succeed and no deposit's total parses to an
    infinity, both totals returned by [getSalesOrderAndDepositTotals] are
    numbers: neither is NaN, whatever else the fields hold. (The order
    total is never NaN in any case.) *)
Theorem totals_are_numbers (v : Variant) (H : Host) (soId t : JSValue) (tr : Trace) :
  orderTotalField v H soId = Normal t ->
  rs_error (search_run H soId) = None ->
  (forall result, In result (linkedDeposits H soId) ->
     isInfinite (parseFloat H (getValue result "total")) = false) ->
  exists totals,
    fst (getSalesOrderAndDepositTotalsOf v H soId tr) = Normal totals /\
    isNaN (soTotal totals) = false /\
    isNaN (depositTotal totals) = false.
Proof.
  intros Ht Hrs Hfin. rewrite totals_run, Ht, Hrs. eexists. split; [reflexivity|].
  simpl. split.
  - destruct (parseFloat H t); reflexivity.
  - apply floatSum_not_nan; [reflexivity|].
    apply Forall_forall. intros x Hx. apply in_map_iff in Hx.
    destruct Hx as [result [<- Hin]]. split; [apply contribution_not_nan|].
    specialize (Hfin result Hin). unfold contribution.
    destruct (parseFloat H _); simpl in *; congruence.
Qed.

(** An order whose total is text, with deposits of -7, of text and of 250. *)
Lemma totals_are_numbers_witness :
  exists totals,
    fst (OTP9419.getSalesOrderAndDepositTotals
           (Sample.host "SUITELET" (VStr "n/a")
              (Sample.deposits [VStr "-7"; VStr "n/a"; VStr "250"]))
           (VStr "77") []) = Normal totals /\
    isNaN (soTotal totals) = false /\
    isNaN (depositTotal totals) = false.
Proof.
  apply (totals_are_numbers RecordLoadScript
           (Sample.host "SUITELET" (VStr "n/a")
              (Sample.deposits [VStr "-7"; VStr "n/a"; VStr "250"]))
           (VStr "77") (VStr "n/a") []); try reflexivity.
  intros result Hin. simpl in Hin.
  destruct Hin as [<-|[<-|[<-|[]]]]; reflexivity.
Defined.

(** X9. A deposit total that is NaN disables the restriction: on a linked
    CREATE event whose lookups succeed, if the deposits sum to NaN then
    [beforeSubmit] returns normally, in every execution context and
    whatever the order total. *)
Theorem nan_deposit_total_allows (v : Variant) (H : Host) (sc : ScriptContext)
    (t : JSValue) (tr : Trace) :
  type sc = UserEventType_CREATE sc ->
  toBoolean (getValue (newRecord sc) "createdfrom") = true ->
  orderTotalField v H (getValue (newRecord sc) "createdfrom") = Normal t ->
  rs_error (search_run H (getValue (newRecord sc) "createdfrom")) = None ->
  isNaN (floatSum (map (contribution H)
           (linkedDeposits H (getValue (newRecord sc) "createdfrom")))) = true ->
  fst (beforeSubmitOf v H sc tr) = Normal tt.
Proof.
  intros Hty Hso Ht Hrs Hnan.
  rewrite beforeSubmit_run, Hty, String.eqb_refl, Hso. cbv zeta. simpl negb. cbv iota.
  rewrite totals_run, Ht, Hrs.
  apply decision_allow, allow_when_not_less. simpl.
  destruct (floatSum _); try discriminate Hnan. reflexivity.
Qed.

(** Deposits of Infinity and of -Infinity against an order of 1000, in a
    Suitelet. *)
Lemma nan_deposit_total_witness :
  isNaN (floatSum (map (contribution
           (Sample.host "SUITELET" (VStr "1000")
              (Sample.deposits [VNum (S754_infinity false); VNum (S754_infinity true)])))
           (linkedDeposits
              (Sample.host "SUITELET" (VStr "1000")
                 (Sample.deposits [VNum (S754_infinity false); VNum (S754_infinity true)]))
              (VStr "77")))) = true /\
  fst (OTP9678.beforeSubmit
         (Sample.host "SUITELET" (VStr "1000")
            (Sample.deposits [VNum (S754_infinity false); VNum (S754_infinity true)]))
         (Sample.event "create" (VStr "77")) []) = Normal tt.
Proof.
  split; [reflexivity|].
  apply (nan_deposit_total_allows LookupFieldsScript
           (Sample.host "SUITELET" (VStr "1000")
              (Sample.deposits [VNum (S754_infinity false); VNum (S754_infinity true)]))
           (Sample.event "create" (VStr "77")) (VStr "1000") []); reflexivity.
Defined.

Lemma truthy_not_negative_unsigned (x : float) :
  truthy x = true -> ltb x zero = false -> unsigned x = true.
Proof. destruct x as [s|[|]| |[|] m e]; simpl; try discriminate; reflexivity. Qed.

Lemma blank_deposits_drop (H : Host) (results : list NSRecord) (acc : float) :
  unsigned acc = true ->
  (forall result, In result results ->
     ltb (parseFloat H (getValue result "total")) zero = false) ->
  fold_left add (map (contribution H) results) acc
  = fold_left add
      (map (fun result => parseFloat H (getValue result "total"))
         (filter (fun result => negb (blank H result)) results))
      acc.
Proof.
  revert acc. induction results as [|result rest IH]; intros acc Hacc Hpos; simpl.
  - reflexivity.
  - destruct (truthy (parseFloat H (getValue result "total"))) eqn:E.
    + replace (contribution H result) with (parseFloat H (getValue result "total"))
        by (unfold contribution, orZero; rewrite E; reflexivity).
      unfold blank at 1. rewrite E. simpl.
      apply IH; [|intros r Hr; apply Hpos; now right].
      apply add_unsigned; [assumption|].
      apply truthy_not_negative_unsigned; [assumption | apply Hpos; now left].
    + replace (contribution H result) with zero
        by (unfold contribution, orZero; rewrite E; reflexivity).
      unfold blank at 1. rewrite E. simpl.
      rewrite add_zero_unsigned by assumption.
      apply IH; [assumption | intros r Hr; apply Hpos; now right].
Qed.

(** X10. Blank deposits do not count. When the lookups succeed and no
    deposit's total parses to a number below zero, the deposit total is
    the sum, from [0] and in the order found, of the parsed totals of the
    deposits that are not blank; those whose total is missing, unparseable
    or zero can be left out without changing it. *)
Theorem blank_deposits_do_not_count (v : Variant) (H : Host) (soId t : JSValue)
    (tr : Trace) :
  orderTotalField v H soId = Normal t ->
  rs_error (search_run H soId) = None ->
  (forall result, In result (linkedDeposits H soId) ->
     ltb (parseFloat H (getValue result "total")) zero = false) ->
  exists totals,
    fst (getSalesOrderAndDepositTotalsOf v H soId tr) = Normal totals /\
    depositTotal totals
    = fold_left add
        (map (fun result => parseFloat H (getValue result "total"))
           (filter (fun result => negb (blank H result)) (linkedDeposits H soId)))
        zero.
Proof.
  intros Ht Hrs Hpos. rewrite totals_run, Ht, Hrs. eexists. split; [reflexivity|].
  simpl. unfold floatSum. apply blank_deposits_drop; [reflexivity | assumption].
Qed.

(** Deposits of 150, blank, text, 0 and 250 come to 150 + 250. *)
Lemma blank_deposits_witness :
  exists totals,
    fst (OTP9678.getSalesOrderAndDepositTotals
           (Sample.host "SUITELET" (VStr "1000")
              (Sample.deposits [VStr "150"; VStr ""; VStr "n/a"; VStr "0"; VStr "250"]))
           (VStr "77") []) = Normal totals /\
    depositTotal totals = add (add zero (ofZ 150)) (ofZ 250).
Proof.
  apply (blank_deposits_do_not_count LookupFieldsScript
           (Sample.host "SUITELET" (VStr "1000")
              (Sample.deposits [VStr "150"; VStr ""; VStr "n/a"; VStr "0"; VStr "250"]))
           (VStr "77") (VStr "1000") []); try reflexivity.
  intros result Hin. simpl in Hin.
  destruct Hin as [<-|[<-|[<-|[<-|[<-|[]]]]]]; reflexivity.
Defined.

(** X11. A single deposit is taken as it is: when the lookups succeed and
    the search finds one deposit, the deposit total is exactly
    [parseFloat(total) || 0] of that deposit, with no rounding. *)
Theorem single_deposit_is_exact (v : Variant) (H : Host) (soId t : JSValue)
    (result : NSRecord) (tr : Trace) :
  orderTotalField v H soId = Normal t ->
  search_run H soId = rs_next result rs_done ->
  exists totals,
    fst (getSalesOrderAndDepositTotalsOf v H soId tr) = Normal totals /\
    depositTotal totals = orZero (parseFloat H (getValue result "total")).
Proof.
  intros Ht Hrs. rewrite totals_run, Ht. unfold linkedDeposits. rewrite Hrs.
  eexists. split; [reflexivity|]. simpl. unfold floatSum, contribution. simpl.
  destruct (parseFloat H (getValue result "total")) as [s|s| |s m e]; reflexivity.
Qed.

(** One deposit of 0.70, a number that binary64 does not have exactly. *)
Lemma single_deposit_witness :
  exists totals,
    fst (OTP9678.getSalesOrderAndDepositTotals
           (Sample.host "SUITELET" (VStr "1000")
              (Sample.deposits [VNum (Sample.decimal 70 2)]))
           (VStr "77") []) = Normal totals /\
    depositTotal totals = S754_finite false 6305039478318694 (-53).
Proof.
  apply (single_deposit_is_exact LookupFieldsScript
           (Sample.host "SUITELET" (VStr "1000")
              (Sample.deposits [VNum (Sample.decimal 70 2)]))
           (VStr "77") (VStr "1000")
           (Sample.deposit (VNum (Sample.decimal 70 2))) []); reflexivity.
Defined.

(** The two scripts on the same host, where both ways of reading the
    order give the total 1000: both deny. *)
Lemma entry_points_witness :
  fst (OTP9678.beforeSubmit
         (Sample.host "SUITELET" (VStr "1000") (Sample.deposits [VStr "150"; VStr "250"]))
         (Sample.event "create" (VStr "77")) [])
  = fst (OTP9419.beforeSubmit
           (Sample.host "SUITELET" (VStr "1000") (Sample.deposits [VStr "150"; VStr "250"]))
           (Sample.event "create" (VStr "77")) []).
Proof.
  apply (entry_points_complete_alike
           (Sample.host "SUITELET" (VStr "1000") (Sample.deposits [VStr "150"; VStr "250"]))
           (Sample.event "create" (VStr "77")) []).
  reflexivity.
Defined.
